(** * YearMonth: a year-month of the ISO-8601 calendar (js-joda, src/YearMonth.js)

    A shallow embedding of the [YearMonth] class and the properties of its
    field protocol ([range], [get], [getLong], [with]), of its arithmetic
    ([plus], [minus] and their year and month variants) and of [from] and
    [equals].

    Years, months and amounts are integers ([Z]); the two places where the
    class meets a JavaScript value that is not an integer ([undefined] passed
    as an amount, and the [NaN] it turns a sum into) are modelled by [JsArg]
    and [number].  Exceptions are values of [Exception], and a method that
    may throw returns a [Result].  Object identity, which [from] and
    [equals] observe, is modelled by references into a heap. *)

From Stdlib Require Import ZArith Lia ZifyBool String.
From stdpp Require Import base gmap strings.

Local Open Scope Z_scope.

(** ** JavaScript values met by the arithmetic *)

(** A JavaScript number as the class computes with it: an integer, or [NaN]. *)
Inductive number : Type :=
| Num (z : Z)
| NaN.

(** An argument passed where the class expects an integer amount. *)
Inductive JsArg : Type :=
| int (n : Z)
| undefined.

(** [a === 0]. *)
Definition strictEqualsZero (a : JsArg) : bool :=
  match a with
  | int n => n =? 0
  | undefined => false
  end.

(** [x + a] for an integer [x]: [undefined] converts to [NaN]. *)
Definition plus_arg (x : Z) (a : JsArg) : number :=
  match a with
  | int n => Num (x + n)
  | undefined => NaN
  end.

(** ** Field and unit tokens *)

(** The constants of [ChronoField]: the five this class implements, and the
    others of the enumeration (day-of-month, hour-of-day, ...), by name. *)
Inductive ChronoField : Type :=
| MONTH_OF_YEAR
| PROLEPTIC_MONTH
| YEAR_OF_ERA
| YEAR
| ERA
| OtherChronoField (name : string).

(** A [TemporalField]: a [ChronoField] constant, or a field defined elsewhere. *)
Inductive TemporalField : Type :=
| Chrono (f : ChronoField)
| ForeignField (name : string).

Coercion Chrono : ChronoField >-> TemporalField.

(** The constants of [ChronoUnit]: the six this class names, and the others. *)
Inductive ChronoUnit : Type :=
| MONTHS
| YEARS
| DECADES
| CENTURIES
| MILLENNIA
| ERAS
| OtherChronoUnit (name : string).

(** A [TemporalUnit]: a [ChronoUnit] constant, or a unit defined elsewhere. *)
Inductive TemporalUnit : Type :=
| ChronoUnitToken (u : ChronoUnit)
| ForeignUnit (name : string).

Coercion ChronoUnitToken : ChronoUnit >-> TemporalUnit.

(** [unit instanceof ChronoField], for a [unit] that is a [TemporalUnit]
    ([requireInstance(unit, TemporalUnit, 'unit')] has passed).  [ChronoField]
    is the class of the field constants; neither a [ChronoUnit] constant nor
    a foreign unit is an instance of it.  ([field instanceof ChronoField] and
    [unit instanceof ChronoUnit] are the constructors [Chrono] and
    [ChronoUnitToken].) *)
Definition unit_instanceof_ChronoField (unit : TemporalUnit) : bool :=
  match unit with
  | ChronoUnitToken _ => false
  | ForeignUnit _ => false
  end.

(** ** Exceptions and results *)

(** What an exception's message reports.  Messages built in YearMonth.js are
    kept as they are built there ([Text], and [UnsupportedField] and
    [UnsupportedUnit] for 'Unsupported field: ' and 'Unsupported unit: '
    followed by the token).  The range checker lives in another file, and
    its message is kept as the check that failed: the field and the rejected
    value (exact while the value is a safe integer, see [plusYears]). *)
Inductive Message : Type :=
| Text (s : string)
| UnsupportedField (field : TemporalField)
| UnsupportedUnit (unit : TemporalUnit)
| InvalidValue (field : TemporalField) (value : number)
| Overflow.

Inductive Exception : Type :=
| DateTimeException (m : Message)
| UnsupportedTemporalTypeException (m : Message)
| ArithmeticException (m : Message)
| NullPointerException (m : Message)
| TypeError (m : Message)
| ForeignException (name : string).

Inductive Result (A : Type) : Type :=
| Ok (a : A)
| Err (e : Exception).

Arguments Ok {A} a.
Arguments Err {A} e.

Definition bind {A B : Type} (c : Result A) (k : A -> Result B) : Result B :=
  match c with
  | Ok a => k a
  | Err e => Err e
  end.

Declare Scope result_scope.
Delimit Scope result_scope with result.
Notation "x <- c ;; k" := (bind c (fun x => k))
  (at level 62, c at next level, right associativity) : result_scope.
Local Open Scope result_scope.

(** ** MathUtil *)

Module MathUtil.

(** Modelled from the spec: MathUtil.js is not part of the sources.  The
    library's safe-integer maximum and minimum, the bounds of the integers a
    JavaScript number holds exactly. *)
Definition MAX_SAFE_INTEGER : Z := 9007199254740991.
Definition MIN_SAFE_INTEGER : Z := -9007199254740991.

Definition isSafeInteger (x : Z) : bool :=
  (MIN_SAFE_INTEGER <=? x) && (x <=? MAX_SAFE_INTEGER).

(** Modelled from the spec: the overflow-checked addition, which fails rather
    than leave the safe integer domain. *)
Definition safeAdd (x y : Z) : Result Z :=
  if isSafeInteger (x + y) then Ok (x + y)
  else Err (ArithmeticException Overflow).

(** Modelled from the spec: the overflow-checked multiplication. *)
Definition safeMultiply (x y : Z) : Result Z :=
  if isSafeInteger (x * y) then Ok (x * y)
  else Err (ArithmeticException Overflow).

(** Modelled from the spec: floor division and floor modulo, which round
    towards negative infinity ([Z.div] and [Z.modulo] for a positive divisor). *)
Definition floorDiv (x y : Z) : Z := x / y.
Definition floorMod (x y : Z) : Z := x mod y.

End MathUtil.

(** ** ValueRange *)

Module ValueRange.

(** Modelled from the spec: ValueRange.js is not part of the sources.  The
    inclusive minimum and maximum of the valid values of a field;
    [of_] is [ValueRange.of(min, max)]. *)
Record t : Type := of_ { minimum : Z; maximum : Z }.

Definition isValidValue (r : t) (value : number) : bool :=
  match value with
  | Num z => (minimum r <=? z) && (z <=? maximum r)
  | NaN => false
  end.

(** Whether every value of the range is an integer of the library: a safe
    integer.  (A JavaScript number has no narrower integer type.) *)
Definition isIntValue (r : t) : bool :=
  (MathUtil.MIN_SAFE_INTEGER <=? minimum r) && (maximum r <=? MathUtil.MAX_SAFE_INTEGER).

Definition isValidIntValue (r : t) (value : number) : bool :=
  isIntValue r && isValidValue r value.

(** Modelled from the spec: the validation [get] applies to the value of
    [getLong], "validates the result fits the field's declared range for this
    instance": the value passes when the range is one of integers of the
    library and holds it.  A failed validation is the invalid-value kind of
    error, a [DateTimeException], as the documentation of [get] in
    YearMonth.js has it. *)
Definition checkValidIntValue (r : t) (value : Z) (field : TemporalField) : Result Z :=
  if isValidIntValue r (Num value) then Ok value
  else Err (DateTimeException (InvalidValue field (Num value))).

End ValueRange.

(** ** The value *)

(** [new YearMonth(year, month)]: the constructor stores its arguments. *)
Record YearMonth : Type := new_YearMonth { _year : Z; _month : Z }.

Definition Ref : Type := positive.

(** A JavaScript value as [equals] may receive it. *)
Inductive JsValue : Type :=
| JsNull
| JsUndefined
| JsBoolean (b : bool)
| JsNumber (n : Z)
| JsString (s : string)
| JsRef (r : Ref).

(** [a === b]: primitives by value, objects by reference. *)
Definition strictEquals (a b : JsValue) : bool :=
  match a, b with
  | JsNull, JsNull => true
  | JsUndefined, JsUndefined => true
  | JsBoolean x, JsBoolean y => Bool.eqb x y
  | JsNumber x, JsNumber y => x =? y
  | JsString x, JsString y => String.eqb x y
  | JsRef x, JsRef y => Pos.eqb x y
  | _, _ => false
  end.

(** An object that is not a [YearMonth], as [from] reads it: its [get]
    method when it has one (a temporal accessor has), the string it converts
    to, and the name of its constructor when it has a constructor. *)
Record ForeignObject : Type := {
  obj_get : option (ChronoField -> Result Z);
  obj_toString : string;
  obj_constructor_name : option string
}.

Inductive HeapObject : Type :=
| YearMonthObject (ym : YearMonth)
| OtherObject (o : ForeignObject).

(** The heap: the objects by reference. *)
Abbreviation Heap := (gmap positive HeapObject).

(** [new]: the object is stored under a reference not in use. *)
Definition alloc (h : Heap) (o : HeapObject) : Ref * Heap :=
  let r := fresh (dom h) in (r, <[r := o]> h).

(** [temporal.get(field)] on an object that may lack the method. *)
Definition call_get (o : ForeignObject) (field : ChronoField) : Result Z :=
  match obj_get o with
  | Some g => g field
  | None => Err (TypeError (Text "temporal.get is not a function"))
  end.

(** [obj instanceof YearMonth], with the instance's fields when it holds. *)
Definition instanceof_YearMonth (h : Heap) (obj : JsValue) : option YearMonth :=
  match obj with
  | JsRef r =>
      match h !! r with
      | Some (YearMonthObject ym) => Some ym
      | _ => None
      end
  | _ => None
  end.

(** ** The rest of the library *)

(** What YearMonth.js takes from files that are not part of the sources: the
    bounds of the year, the declared ranges of the field constants whose
    bounds the class does not state, and the methods of the objects it
    defers to (a foreign field, by its name; a unit). *)
Record Library : Type := {
  Year_MIN_VALUE : Z;
  Year_MAX_VALUE : Z;
  ChronoField_declaredRange : ChronoField -> ValueRange.t;
  field_isSupportedBy : string -> YearMonth -> bool;
  field_rangeRefinedBy : string -> YearMonth -> Result ValueRange.t;
  field_getFrom : string -> YearMonth -> Result Z;
  field_adjustInto : string -> YearMonth -> Z -> Result YearMonth;
  unit_isSupportedBy : string -> YearMonth -> bool;
  unit_addTo : TemporalUnit -> YearMonth -> Z -> Result YearMonth
}.

(** A library to run the class on concrete inputs: the year bounds of the
    spec's example, the declared ranges that follow from them, and foreign
    objects whose methods throw. *)
Definition sample_declaredRange (f : ChronoField) : ValueRange.t :=
  match f with
  | PROLEPTIC_MONTH => ValueRange.of_ (-999999999 * 12) (999999999 * 12 + 11)
  | YEAR_OF_ERA => ValueRange.of_ 1 (999999999 + 1)
  | ERA => ValueRange.of_ 0 1
  | _ => ValueRange.of_ 0 0
  end.

Definition sample : Library := {|
  Year_MIN_VALUE := -999999999;
  Year_MAX_VALUE := 999999999;
  ChronoField_declaredRange := sample_declaredRange;
  field_isSupportedBy := fun _ _ => false;
  field_rangeRefinedBy := fun name _ => Err (ForeignException name);
  field_getFrom := fun name _ => Err (ForeignException name);
  field_adjustInto := fun name _ _ => Err (ForeignException name);
  unit_isSupportedBy := fun _ _ => false;
  unit_addTo := fun _ _ _ => Err (ForeignException "TemporalUnit.addTo")
|}.

(** A temporal accessor of another class, which answers for December 2007;
    an object with no [get] method; and a heap that holds two instances of
    2007-12, one of 2008-01 and these two objects. *)
Definition sample_accessor : ForeignObject := {|
  obj_get := Some (fun f =>
    match f with
    | YEAR => Ok 2007
    | MONTH_OF_YEAR => Ok 12
    | _ => Err (UnsupportedTemporalTypeException (UnsupportedField f))
    end);
  obj_toString := "2007-12-03";
  obj_constructor_name := Some "LocalDate"
|}.

Definition sample_object : ForeignObject := {|
  obj_get := None;
  obj_toString := "[object Object]";
  obj_constructor_name := Some "Object"
|}.

Definition sample_heap : Heap :=
  <[1%positive := YearMonthObject (new_YearMonth 2007 12)]>
  (<[2%positive := YearMonthObject (new_YearMonth 2007 12)]>
  (<[3%positive := YearMonthObject (new_YearMonth 2008 1)]>
  (<[4%positive := OtherObject sample_accessor]>
  (<[5%positive := OtherObject sample_object]> ∅)))).

Section YearMonth.

Context (L : Library).

(** *** ChronoField *)

(** [field.range()]: the declared range of a field constant. *)
Definition ChronoField_range (f : ChronoField) : ValueRange.t :=
  match f with
  | YEAR => ValueRange.of_ (Year_MIN_VALUE L) (Year_MAX_VALUE L)
  | MONTH_OF_YEAR => ValueRange.of_ 1 12
  | _ => ChronoField_declaredRange L f
  end.

(** Modelled from the spec: ChronoField.js is not part of the sources.  The
    field-range checker: the value when it lies within the field's declared
    bounds, a [DateTimeException] otherwise. *)
Definition ChronoField_checkValidValue (f : ChronoField) (value : Z) : Result Z :=
  if ValueRange.isValidValue (ChronoField_range f) (Num value) then Ok value
  else Err (DateTimeException (InvalidValue f (Num value))).

(** Modelled from the spec: the same check on a computed number ("overflow
    checking against YEAR's range"); [NaN] lies in no range. *)
Definition ChronoField_checkValidIntValue (f : ChronoField) (value : number) : Result Z :=
  match value with
  | Num z => ChronoField_checkValidValue f z
  | NaN => Err (DateTimeException (InvalidValue f NaN))
  end.

(** *** Construction *)

Definition _ofYearMonthNumber (year month : Z) : Result YearMonth :=
  _ <- ChronoField_checkValidValue YEAR year;;
  _ <- ChronoField_checkValidValue MONTH_OF_YEAR month;;
  Ok (new_YearMonth year month).

(** [YearMonth.of(year, month)] with a numeric month (the overload taking a
    [Month] passes its value to the same function). *)
Definition of_ (year month : Z) : Result YearMonth :=
  _ofYearMonthNumber year month.

(** The body of the [try] block of [from]: the two calls of [get], in order,
    and the call of [of]. *)
Definition from_extract (o : ForeignObject) : Result YearMonth :=
  y <- call_get o YEAR;;
  m <- call_get o MONTH_OF_YEAR;;
  of_ y m.

(** The message of the [catch] block of [from]: the object as a string, and
    the name of its constructor, or nothing when it has no constructor. *)
Definition from_message (o : ForeignObject) : string :=
  "Unable to obtain YearMonth from TemporalAccessor: " +:+ obj_toString o
  +:+ ", type " +:+
  match obj_constructor_name o with
  | Some name => name
  | None => ""
  end.

(** [YearMonth.from(temporal)], for a reference [temporal] (which
    [requireNonNull] lets pass; a reference to nothing stands for null). *)
Definition from (h : Heap) (temporal : Ref) : Result (Ref * Heap) :=
  match h !! temporal with
  | None => Err (NullPointerException (Text "temporal must not be null"))
  | Some (YearMonthObject _) => Ok (temporal, h)
  | Some (OtherObject o) =>
      match from_extract o with
      | Ok ym => Ok (alloc h (YearMonthObject ym))
      | Err _ => Err (DateTimeException (Text (from_message o)))
      end
  end.

(** *** Field protocol *)

Definition _isSupportedField (this : YearMonth) (field : TemporalField) : bool :=
  match field with
  | Chrono f =>
      match f with
      | YEAR | MONTH_OF_YEAR | PROLEPTIC_MONTH | YEAR_OF_ERA | ERA => true
      | OtherChronoField _ => false
      end
  | ForeignField name => field_isSupportedBy L name this
  end.

Definition _isSupportedUnit (this : YearMonth) (unit : TemporalUnit) : bool :=
  match unit with
  | ChronoUnitToken u =>
      match u with
      | MONTHS | YEARS | DECADES | CENTURIES | MILLENNIA | ERAS => true
      | OtherChronoUnit _ => false
      end
  | ForeignUnit name => unit_isSupportedBy L name this
  end.

Definition year (this : YearMonth) : Z := _year this.

Definition monthValue (this : YearMonth) : Z := _month this.

(** Modelled from the spec: [super.range(field)], of the class [Temporal],
    which is not part of the sources: the declared range of a supported
    field constant, a [DateTimeException] for an unsupported one, and the
    field's own answer for a foreign field. *)
Definition Temporal_range (this : YearMonth) (field : TemporalField) : Result ValueRange.t :=
  match field with
  | Chrono f =>
      if _isSupportedField this field then Ok (ChronoField_range f)
      else Err (DateTimeException (UnsupportedField field))
  | ForeignField name => field_rangeRefinedBy L name this
  end.

Definition range (this : YearMonth) (field : TemporalField) : Result ValueRange.t :=
  match field with
  | Chrono YEAR_OF_ERA =>
      Ok (if year this <=? 0 then ValueRange.of_ 1 (Year_MAX_VALUE L + 1)
          else ValueRange.of_ 1 (Year_MAX_VALUE L))
  | _ => Temporal_range this field
  end.

Definition _getProlepticMonth (this : YearMonth) : Result Z :=
  p <- MathUtil.safeMultiply (_year this) 12;;
  MathUtil.safeAdd p (_month this - 1).

Definition getLong (this : YearMonth) (field : TemporalField) : Result Z :=
  match field with
  | Chrono f =>
      match f with
      | MONTH_OF_YEAR => Ok (_month this)
      | PROLEPTIC_MONTH => _getProlepticMonth this
      | YEAR_OF_ERA => Ok (if _year this <? 1 then 1 - _year this else _year this)
      | YEAR => Ok (_year this)
      | ERA => Ok (if _year this <? 1 then 0 else 1)
      | OtherChronoField _ =>
          Err (UnsupportedTemporalTypeException (UnsupportedField field))
      end
  | ForeignField name => field_getFrom L name this
  end.

(** [this.range(field).checkValidIntValue(this.getLong(field), field)]: the
    receiver [this.range(field)] is evaluated before the argument. *)
Definition get (this : YearMonth) (field : TemporalField) : Result Z :=
  r <- range this field;;
  v <- getLong this field;;
  ValueRange.checkValidIntValue r v field.

(** *** Adjustment *)

Definition _withYearMonth (this : YearMonth) (newYear newMonth : Z) : YearMonth :=
  if (_year this =? newYear) && (_month this =? newMonth) then this
  else new_YearMonth newYear newMonth.

Definition withYear (this : YearMonth) (year : Z) : Result YearMonth :=
  _ <- ChronoField_checkValidValue YEAR year;;
  Ok (_withYearMonth this year (_month this)).

Definition withMonth (this : YearMonth) (month : Z) : Result YearMonth :=
  _ <- ChronoField_checkValidValue MONTH_OF_YEAR month;;
  Ok (_withYearMonth this (_year this) month).

(** *** Addition *)

(** [plusYears(yearsToAdd)].  The sum is taken in [Z].  JavaScript adds
    doubles, which is the same sum as long as it is a safe integer; past
    that the number handed to the check of the year is the sum rounded to a
    double, so the number a failed check reports here may differ from the
    one the code reports in its last digits.  In a library whose years are
    safe integers, whether the check passes, and every value returned, are
    the same. *)
Definition plusYears (this : YearMonth) (yearsToAdd : Z) : Result YearMonth :=
  if yearsToAdd =? 0 then Ok this
  else
    newYear <- ChronoField_checkValidIntValue YEAR (Num (_year this + yearsToAdd));;
    Ok (_withYearMonth this newYear (_month this)).

(** [plusMonths(monthsToAdd)].  The amount is a [JsArg]: [minusMonths] passes
    [undefined] on one path.  [monthCount + monthsToAdd] is then [NaN], and
    so is its [floorDiv] by 12, which the check of the year rejects.
    For an integer amount the sum is taken in [Z]; as for [plusYears], past
    the safe integers the code's sum is rounded to a double, and the year a
    failed check reports may differ in its last digits, while in a library
    whose months are safe integers the outcome of the check and every value
    returned are the same. *)
Definition plusMonths (this : YearMonth) (monthsToAdd : JsArg) : Result YearMonth :=
  if strictEqualsZero monthsToAdd then Ok this
  else
    let monthCount := _year this * 12 + (_month this - 1) in
    match plus_arg monthCount monthsToAdd with
    | Num calcMonths =>
        newYear <- ChronoField_checkValidIntValue YEAR
                     (Num (MathUtil.floorDiv calcMonths 12));;
        let newMonth := MathUtil.floorMod calcMonths 12 + 1 in
        Ok (_withYearMonth this newYear newMonth)
    | NaN =>
        (* the check throws, and the lines after it do not run *)
        newYear <- ChronoField_checkValidIntValue YEAR NaN;;
        Ok (_withYearMonth this newYear (_month this))
    end.

(** [_withFieldValue(field, newValue)], which [with] calls when it has two
    arguments of which the first is a [TemporalField]. *)
Definition _withFieldValue (this : YearMonth) (field : TemporalField) (newValue : Z)
  : Result YearMonth :=
  match field with
  | Chrono f =>
      _ <- ChronoField_checkValidValue f newValue;;
      match f with
      | MONTH_OF_YEAR => withMonth this newValue
      | PROLEPTIC_MONTH =>
          current <- getLong this PROLEPTIC_MONTH;;
          plusMonths this (int (newValue - current))
      | YEAR_OF_ERA => withYear this (if _year this <? 1 then 1 - newValue else newValue)
      | YEAR => withYear this newValue
      | ERA =>
          era <- getLong this ERA;;
          if era =? newValue then Ok this else withYear this (1 - _year this)
      | OtherChronoField _ =>
          Err (UnsupportedTemporalTypeException (UnsupportedField field))
      end
  | ForeignField name => field_adjustInto L name this newValue
  end.

(** The [switch] of [_plusAmountUnit] (lines 631 to 639), with the [throw]
    that follows it. *)
Definition plusAmountUnit_switch (this : YearMonth) (amountToAdd : Z) (unit : TemporalUnit)
  : Result YearMonth :=
  match unit with
  | ChronoUnitToken MONTHS => plusMonths this (int amountToAdd)
  | ChronoUnitToken YEARS => plusYears this amountToAdd
  | ChronoUnitToken DECADES =>
      years <- MathUtil.safeMultiply amountToAdd 10;; plusYears this years
  | ChronoUnitToken CENTURIES =>
      years <- MathUtil.safeMultiply amountToAdd 100;; plusYears this years
  | ChronoUnitToken MILLENNIA =>
      years <- MathUtil.safeMultiply amountToAdd 1000;; plusYears this years
  | ChronoUnitToken ERAS =>
      era <- getLong this ERA;;
      newEra <- MathUtil.safeAdd era amountToAdd;;
      _withFieldValue this ERA newEra
  | _ => Err (UnsupportedTemporalTypeException (UnsupportedUnit unit))
  end.

(** [_plusAmountUnit(amountToAdd, unit)], which [plus] calls when it has two
    arguments: the [switch] is guarded by [unit instanceof ChronoField]. *)
Definition _plusAmountUnit (this : YearMonth) (amountToAdd : Z) (unit : TemporalUnit)
  : Result YearMonth :=
  if unit_instanceof_ChronoField unit then plusAmountUnit_switch this amountToAdd unit
  else unit_addTo L unit this amountToAdd.

(** *** Subtraction *)

(** [Math.MAX_SAFE_INTEGER]: the constant is a property of [Number]; [Math]
    has no property of this name, and the expression is [undefined]. *)
Definition Math_MAX_SAFE_INTEGER : JsArg := undefined.

(** [_minusAmountUnit(amountToSubtract, unit)], which [minus] calls when it
    has two arguments. *)
Definition _minusAmountUnit (this : YearMonth) (amountToSubtract : Z) (unit : TemporalUnit)
  : Result YearMonth :=
  if amountToSubtract =? MathUtil.MIN_SAFE_INTEGER then
    r <- _plusAmountUnit this MathUtil.MAX_SAFE_INTEGER unit;;
    _plusAmountUnit r 1 unit
  else _plusAmountUnit this (- amountToSubtract) unit.

Definition minusYears (this : YearMonth) (yearsToSubtract : Z) : Result YearMonth :=
  if yearsToSubtract =? MathUtil.MIN_SAFE_INTEGER then
    r <- plusYears this MathUtil.MIN_SAFE_INTEGER;;
    plusYears r 1
  else plusYears this (- yearsToSubtract).

Definition minusMonths (this : YearMonth) (monthsToSubtract : Z) : Result YearMonth :=
  if monthsToSubtract =? MathUtil.MIN_SAFE_INTEGER then
    r <- plusMonths this Math_MAX_SAFE_INTEGER;;
    plusMonths r (int 1)
  else plusMonths this (int (- monthsToSubtract)).

(** *** Equality *)

(** [this.equals(obj)], for a receiver [this] that is a [YearMonth] of the
    heap (with a receiver that is none the model answers [false]). *)
Definition equals (h : Heap) (this : Ref) (obj : JsValue) : bool :=
  if strictEquals (JsRef this) obj then true
  else
    match instanceof_YearMonth h obj, instanceof_YearMonth h (JsRef this) with
    | Some other, Some me =>
        (year me =? year other) && (monthValue me =? monthValue other)
    | _, _ => false
    end.

(** *** The subtraction as the specification words it *)

(** The specification's subtraction of years: negate and add, and at the
    most negative amount add the safe-integer maximum, then 1. *)
Definition minusYears_spec (this : YearMonth) (n : Z) : Result YearMonth :=
  if n =? MathUtil.MIN_SAFE_INTEGER then
    r <- plusYears this MathUtil.MAX_SAFE_INTEGER;;
    plusYears r 1
  else plusYears this (- n).

(** The specification's subtraction of months, in the same words. *)
Definition minusMonths_spec (this : YearMonth) (n : Z) : Result YearMonth :=
  if n =? MathUtil.MIN_SAFE_INTEGER then
    r <- plusMonths this (int MathUtil.MAX_SAFE_INTEGER);;
    plusMonths r (int 1)
  else plusMonths this (int (- n)).

(** The specification's subtraction of an amount of a unit. *)
Definition minusAmountUnit_spec (this : YearMonth) (n : Z) (unit : TemporalUnit)
  : Result YearMonth :=
  if n =? MathUtil.MIN_SAFE_INTEGER then
    r <- _plusAmountUnit this MathUtil.MAX_SAFE_INTEGER unit;;
    _plusAmountUnit r 1 unit
  else _plusAmountUnit this (- n) unit.

(** The specification's dispatch of [plus(amount, unit)] on the unit
    constants. *)
Definition plusAmountUnit_spec (this : YearMonth) (amount : Z) (u : ChronoUnit)
  : Result YearMonth :=
  match u with
  | MONTHS => plusMonths this (int amount)
  | YEARS => plusYears this amount
  | DECADES => years <- MathUtil.safeMultiply amount 10;; plusYears this years
  | CENTURIES => years <- MathUtil.safeMultiply amount 100;; plusYears this years
  | MILLENNIA => years <- MathUtil.safeMultiply amount 1000;; plusYears this years
  | ERAS =>
      era <- getLong this ERA;;
      newEra <- MathUtil.safeAdd era amount;;
      _withFieldValue this ERA newEra
  | OtherChronoUnit _ =>
      Err (UnsupportedTemporalTypeException (UnsupportedUnit (ChronoUnitToken u)))
  end.

(** *** The invariant of the data model *)

(** The bounds the factories check: the year within the range of YEAR and
    the month within the range of MONTH_OF_YEAR. *)
Definition isValidYearMonth (this : YearMonth) : bool :=
  ValueRange.isValidValue (ChronoField_range YEAR) (Num (_year this)) &&
  ValueRange.isValidValue (ChronoField_range MONTH_OF_YEAR) (Num (_month this)).

(** Whether the proleptic month of every month of every year of the library
    is a safe integer, so that [_getProlepticMonth] does not overflow on a
    value within the bounds. *)
Definition prolepticMonthsAreSafe : bool :=
  MathUtil.isSafeInteger (Year_MIN_VALUE L * 12) &&
  MathUtil.isSafeInteger (Year_MAX_VALUE L * 12 + 11).

(** Whether the months of all the years of the library, counted together,
    stay below the safe-integer maximum: no amount at the limits of the safe
    integers then leads from one year of the library to another. *)
Definition monthSpanIsSafe : bool :=
  12 * (Year_MAX_VALUE L - Year_MIN_VALUE L + 1) <=? MathUtil.MAX_SAFE_INTEGER.

(** ** Properties *)

(** *** Results and checks *)

Lemma withYearMonth_value (this : YearMonth) (y m : Z) :
  _withYearMonth this y m = new_YearMonth y m.
Proof.
  unfold _withYearMonth. destruct this as [y0 m0]; simpl.
  destruct (andb (y0 =? y) (m0 =? m)) eqn:E; [|reflexivity].
  f_equal; lia.
Qed.

Lemma checkValidValue_in (f : ChronoField) (v : Z) :
  ValueRange.isValidValue (ChronoField_range f) (Num v) = true ->
  ChronoField_checkValidValue f v = Ok v.
Proof. unfold ChronoField_checkValidValue. now intros ->. Qed.

Lemma checkValidValue_out (f : ChronoField) (v : Z) :
  ValueRange.isValidValue (ChronoField_range f) (Num v) = false ->
  ChronoField_checkValidValue f v = Err (DateTimeException (InvalidValue f (Num v))).
Proof. unfold ChronoField_checkValidValue. now intros ->. Qed.

Lemma isValidValue_YEAR (v : Z) :
  ValueRange.isValidValue (ChronoField_range YEAR) (Num v) = true <->
  Year_MIN_VALUE L <= v <= Year_MAX_VALUE L.
Proof. simpl. lia. Qed.

Lemma isValidValue_MONTH_OF_YEAR (v : Z) :
  ValueRange.isValidValue (ChronoField_range MONTH_OF_YEAR) (Num v) = true <->
  1 <= v <= 12.
Proof. simpl. lia. Qed.

Lemma checkValidValue_YEAR_in (v : Z) :
  Year_MIN_VALUE L <= v <= Year_MAX_VALUE L ->
  ChronoField_checkValidValue YEAR v = Ok v.
Proof. intros H. apply checkValidValue_in, isValidValue_YEAR, H. Qed.

Lemma checkValidValue_YEAR_out (v : Z) :
  ~ (Year_MIN_VALUE L <= v <= Year_MAX_VALUE L) ->
  ChronoField_checkValidValue YEAR v = Err (DateTimeException (InvalidValue YEAR (Num v))).
Proof.
  intros H. apply checkValidValue_out.
  destruct (ValueRange.isValidValue _ _) eqn:E; [|reflexivity].
  apply isValidValue_YEAR in E. contradiction.
Qed.

Lemma checkValidValue_inv (f : ChronoField) (v w : Z) :
  ChronoField_checkValidValue f v = Ok w ->
  w = v /\ ValueRange.isValidValue (ChronoField_range f) (Num v) = true.
Proof.
  unfold ChronoField_checkValidValue.
  destruct (ValueRange.isValidValue _ _); [|discriminate].
  intros [= ->]. split; reflexivity.
Qed.

Lemma of_valid (y m : Z) :
  Year_MIN_VALUE L <= y <= Year_MAX_VALUE L -> 1 <= m <= 12 ->
  of_ y m = Ok (new_YearMonth y m).
Proof.
  intros Hy Hm. unfold of_, _ofYearMonthNumber.
  rewrite (checkValidValue_YEAR_in _ Hy). simpl.
  rewrite checkValidValue_in; [reflexivity|]. now apply isValidValue_MONTH_OF_YEAR.
Qed.

(** *** Month arithmetic *)

Lemma plusMonths_zero (this : YearMonth) : plusMonths this (int 0) = Ok this.
Proof. reflexivity. Qed.

Lemma plusMonths_in (this : YearMonth) (n : Z) :
  n <> 0 ->
  Year_MIN_VALUE L <= (_year this * 12 + (_month this - 1) + n) / 12 <= Year_MAX_VALUE L ->
  plusMonths this (int n) =
    Ok (new_YearMonth ((_year this * 12 + (_month this - 1) + n) / 12)
                      ((_year this * 12 + (_month this - 1) + n) mod 12 + 1)).
Proof.
  intros Hn Hr. unfold plusMonths. simpl.
  destruct (n =? 0) eqn:E; [lia|].
  unfold MathUtil.floorDiv, MathUtil.floorMod.
  rewrite (checkValidValue_YEAR_in _ Hr). simpl.
  now rewrite withYearMonth_value.
Qed.

Lemma plusMonths_out (this : YearMonth) (n : Z) :
  n <> 0 ->
  ~ (Year_MIN_VALUE L <= (_year this * 12 + (_month this - 1) + n) / 12 <= Year_MAX_VALUE L) ->
  plusMonths this (int n) =
    Err (DateTimeException
           (InvalidValue YEAR (Num ((_year this * 12 + (_month this - 1) + n) / 12)))).
Proof.
  intros Hn Hr. unfold plusMonths. simpl.
  destruct (n =? 0) eqn:E; [lia|].
  unfold MathUtil.floorDiv.
  now rewrite (checkValidValue_YEAR_out _ Hr).
Qed.

Lemma plusMonths_undefined (this : YearMonth) :
  plusMonths this undefined = Err (DateTimeException (InvalidValue YEAR NaN)).
Proof. reflexivity. Qed.

Lemma minusMonths_int (this : YearMonth) (n : Z) :
  n <> MathUtil.MIN_SAFE_INTEGER ->
  minusMonths this n = plusMonths this (int (- n)).
Proof.
  intros Hn. unfold minusMonths.
  destruct (n =? MathUtil.MIN_SAFE_INTEGER) eqn:E; [lia|reflexivity].
Qed.

(** C3: [plusMonths(n)] returns the value itself for [n = 0]; otherwise it
    takes the month count [y*12 + (m-1) + n], checks its floor quotient by 12
    against the range of YEAR, failing with a [DateTimeException] when it is
    out of range, and returns that quotient as the year and the floor
    remainder plus 1 as the month.  When 2007 and 2008 are years of the
    library, one month after 2007-12 is 2008-01, and one month before
    2008-01 is 2007-12. *)
Theorem plusMonths_rollover (this : YearMonth) (n : Z) :
  let total := _year this * 12 + (_month this - 1) + n in
  (n = 0 -> plusMonths this (int n) = Ok this) /\
  (n <> 0 -> Year_MIN_VALUE L <= MathUtil.floorDiv total 12 <= Year_MAX_VALUE L ->
   plusMonths this (int n) =
     Ok (new_YearMonth (MathUtil.floorDiv total 12) (MathUtil.floorMod total 12 + 1))) /\
  (n <> 0 -> ~ (Year_MIN_VALUE L <= MathUtil.floorDiv total 12 <= Year_MAX_VALUE L) ->
   exists m, plusMonths this (int n) = Err (DateTimeException m)) /\
  (Year_MIN_VALUE L <= 2007 -> 2008 <= Year_MAX_VALUE L ->
   of_ 2007 12 = Ok (new_YearMonth 2007 12) /\
   of_ 2008 1 = Ok (new_YearMonth 2008 1) /\
   plusMonths (new_YearMonth 2007 12) (int 1) = Ok (new_YearMonth 2008 1) /\
   minusMonths (new_YearMonth 2008 1) 1 = Ok (new_YearMonth 2007 12)).
Proof.
  intros total. unfold MathUtil.floorDiv, MathUtil.floorMod. repeat split.
  - intros ->. apply plusMonths_zero.
  - intros Hn Hr. now apply plusMonths_in.
  - intros Hn Hr. eexists. now apply plusMonths_out.
  - apply of_valid; lia.
  - apply of_valid; lia.
  - rewrite plusMonths_in; simpl; [reflexivity|lia|].
    Z.div_mod_to_equations. lia.
  - rewrite minusMonths_int by (unfold MathUtil.MIN_SAFE_INTEGER; lia).
    rewrite plusMonths_in; simpl; [reflexivity|lia|].
    Z.div_mod_to_equations. lia.
Qed.

(** *** Field values *)

Lemma getProlepticMonth_safe (this : YearMonth) :
  MathUtil.isSafeInteger (_year this * 12) = true ->
  MathUtil.isSafeInteger (_year this * 12 + (_month this - 1)) = true ->
  _getProlepticMonth this = Ok (_year this * 12 + (_month this - 1)).
Proof.
  intros H1 H2. unfold _getProlepticMonth, MathUtil.safeMultiply, MathUtil.safeAdd.
  rewrite H1. simpl. now rewrite H2.
Qed.

(** C4: [getLong] on the field constants: the month for MONTH_OF_YEAR; for
    PROLEPTIC_MONTH the overflow-checked [y*12 + (m-1)], which is that number
    when the product and the sum are safe integers and an
    [ArithmeticException] otherwise; for YEAR_OF_ERA [1-y] when [y < 1] and
    [y] otherwise; the year for YEAR; for ERA 0 when [y < 1] and 1 otherwise;
    and an [UnsupportedTemporalTypeException] for every other constant. *)
Theorem getLong_well_known (this : YearMonth) :
  let y := _year this in
  let m := _month this in
  getLong this MONTH_OF_YEAR = Ok m /\
  getLong this PROLEPTIC_MONTH =
    (if MathUtil.isSafeInteger (y * 12) then
       if MathUtil.isSafeInteger (y * 12 + (m - 1)) then Ok (y * 12 + (m - 1))
       else Err (ArithmeticException Overflow)
     else Err (ArithmeticException Overflow)) /\
  getLong this YEAR_OF_ERA = Ok (if y <? 1 then 1 - y else y) /\
  getLong this YEAR = Ok y /\
  getLong this ERA = Ok (if y <? 1 then 0 else 1) /\
  (forall name,
     getLong this (OtherChronoField name) =
       Err (UnsupportedTemporalTypeException (UnsupportedField (OtherChronoField name)))).
Proof.
  intros y m. repeat split.
  unfold getLong, _getProlepticMonth, MathUtil.safeMultiply, MathUtil.safeAdd.
  fold y m. destruct (MathUtil.isSafeInteger (y * 12)); reflexivity.
Qed.

(** C8: [range(YEAR_OF_ERA)] is 1..MAX_YEAR for a year of at least 1, and
    1..MAX_YEAR+1 for a year below 1. *)
Theorem range_YEAR_OF_ERA (this : YearMonth) :
  (1 <= year this ->
   range this YEAR_OF_ERA = Ok (ValueRange.of_ 1 (Year_MAX_VALUE L))) /\
  (year this < 1 ->
   range this YEAR_OF_ERA = Ok (ValueRange.of_ 1 (Year_MAX_VALUE L + 1))).
Proof.
  unfold range. split; intros H.
  - destruct (year this <=? 0) eqn:E; [lia|reflexivity].
  - destruct (year this <=? 0) eqn:E; [reflexivity|lia].
Qed.


(** *** Adjustment *)

Lemma withYear_value (this : YearMonth) (y : Z) :
  withYear this y =
    if ValueRange.isValidValue (ChronoField_range YEAR) (Num y)
    then Ok (new_YearMonth y (_month this))
    else Err (DateTimeException (InvalidValue YEAR (Num y))).
Proof.
  unfold withYear, ChronoField_checkValidValue.
  destruct (ValueRange.isValidValue _ _); [|reflexivity].
  simpl. now rewrite withYearMonth_value.
Qed.

Lemma withMonth_value (this : YearMonth) (m : Z) :
  withMonth this m =
    if ValueRange.isValidValue (ChronoField_range MONTH_OF_YEAR) (Num m)
    then Ok (new_YearMonth (_year this) m)
    else Err (DateTimeException (InvalidValue MONTH_OF_YEAR (Num m))).
Proof.
  unfold withMonth, ChronoField_checkValidValue.
  destruct (ValueRange.isValidValue _ _); [|reflexivity].
  simpl bind. now rewrite withYearMonth_value.
Qed.

(** C6: [with(field, newValue)] on a field constant first checks [newValue]
    against the declared bounds of the field and fails with a
    [DateTimeException] outside them.  Within them, MONTH_OF_YEAR replaces
    the month alone; PROLEPTIC_MONTH adds, by [plusMonths], the difference
    between [newValue] and the current proleptic month; YEAR_OF_ERA sets the
    year, by [withYear], to [1 - newValue] when the current year is below 1
    and to [newValue] otherwise; YEAR replaces the year alone; ERA returns
    the value itself when its era is [newValue] and otherwise sets the year
    to [1 - year].  [withYear] checks the year and keeps the month. *)
Theorem withFieldValue_well_known (this : YearMonth) (f : ChronoField) (newValue : Z) :
  let y := _year this in
  let m := _month this in
  (ValueRange.isValidValue (ChronoField_range f) (Num newValue) = false ->
   _withFieldValue this f newValue =
     Err (DateTimeException (InvalidValue f (Num newValue)))) /\
  (ValueRange.isValidValue (ChronoField_range f) (Num newValue) = true ->
   match f with
   | MONTH_OF_YEAR =>
       _withFieldValue this f newValue = Ok (new_YearMonth y newValue)
   | PROLEPTIC_MONTH =>
       _withFieldValue this f newValue =
         (current <- getLong this PROLEPTIC_MONTH;;
          plusMonths this (int (newValue - current)))
   | YEAR_OF_ERA =>
       _withFieldValue this f newValue =
         withYear this (if y <? 1 then 1 - newValue else newValue)
   | YEAR =>
       _withFieldValue this f newValue = Ok (new_YearMonth newValue m)
   | ERA =>
       _withFieldValue this f newValue =
         (if (if y <? 1 then 0 else 1) =? newValue then Ok this
          else withYear this (1 - y))
   | OtherChronoField _ =>
       _withFieldValue this f newValue =
         Err (UnsupportedTemporalTypeException (UnsupportedField f))
   end) /\
  (forall year' : Z,
     withYear this year' =
       if ValueRange.isValidValue (ChronoField_range YEAR) (Num year')
       then Ok (new_YearMonth year' m)
       else Err (DateTimeException (InvalidValue YEAR (Num year')))).
Proof.
  intros y m. split; [|split].
  - intros H. unfold _withFieldValue. now rewrite (checkValidValue_out _ _ H).
  - intros H. unfold _withFieldValue. rewrite (checkValidValue_in _ _ H).
    cbn [bind]. destruct f; try reflexivity.
    + rewrite withMonth_value, H. reflexivity.
    + rewrite withYear_value, H. reflexivity.
  - intros year'. apply withYear_value.
Qed.

(** *** Months added, then subtracted *)

Lemma plusMonths_int_eq (this : YearMonth) (n : Z) :
  plusMonths this (int n) =
    if n =? 0 then Ok this
    else
      let total := _year this * 12 + (_month this - 1) + n in
      if ValueRange.isValidValue (ChronoField_range YEAR) (Num (total / 12))
      then Ok (new_YearMonth (total / 12) (total mod 12 + 1))
      else Err (DateTimeException (InvalidValue YEAR (Num (total / 12)))).
Proof.
  unfold plusMonths. cbn [strictEqualsZero plus_arg].
  destruct (n =? 0); [reflexivity|].
  cbv zeta. unfold ChronoField_checkValidIntValue, ChronoField_checkValidValue,
    MathUtil.floorDiv, MathUtil.floorMod.
  destruct (ValueRange.isValidValue _ _); [|reflexivity].
  cbn [bind]. now rewrite withYearMonth_value.
Qed.

(** C7: for a value whose month is one of 1..12, when [plusMonths(n)] and
    then [minusMonths(n)] on its result both succeed, the final value has
    the year and the month of the original, which is the comparison [equals]
    makes. *)
Theorem plusMonths_minusMonths (this r r' : YearMonth) (n : Z) :
  1 <= _month this <= 12 ->
  plusMonths this (int n) = Ok r ->
  minusMonths r n = Ok r' ->
  r' = this /\
  (year this =? year r') && (monthValue this =? monthValue r') = true.
Proof.
  intros Hm Hplus Hminus.
  cut (r' = this).
  { intros ->. split; [reflexivity|]. now rewrite !Z.eqb_refl. }
  destruct (Z.eq_dec n MathUtil.MIN_SAFE_INTEGER) as [Hmin|Hmin].
  { unfold minusMonths in Hminus. subst n. rewrite Z.eqb_refl in Hminus.
    rewrite plusMonths_undefined in Hminus. discriminate. }
  rewrite (minusMonths_int _ _ Hmin) in Hminus.
  rewrite plusMonths_int_eq in Hplus, Hminus.
  destruct (Z.eqb_spec n 0) as [->|Hn].
  { simpl in Hminus. congruence. }
  destruct (Z.eqb_spec (- n) 0) as [Hn'|_]; [lia|].
  cbv zeta in Hplus, Hminus.
  destruct (ValueRange.isValidValue _ _) in Hplus; [|discriminate].
  injection Hplus as <-. cbn [_year _month] in Hminus.
  destruct (ValueRange.isValidValue _ _) in Hminus; [|discriminate].
  injection Hminus as <-.
  destruct this as [y m]. cbn [_year _month] in *.
  f_equal; Z.div_mod_to_equations; lia.
Qed.

(** *** Amounts of a unit *)

Lemma isSupportedUnit_constants (this : YearMonth) (u : ChronoUnit) :
  _isSupportedUnit this u = true <->
  u = MONTHS \/ u = YEARS \/ u = DECADES \/ u = CENTURIES \/ u = MILLENNIA \/ u = ERAS.
Proof.
  destruct u; simpl; split; intros H; try reflexivity; try discriminate; auto 10.
  repeat destruct H as [H|H]; discriminate.
Qed.

(** C1, on the code: [_plusAmountUnit] guards its [switch] with
    [unit instanceof ChronoField], which no unit passes; for every unit
    constant the call is the unit's own [addTo], whatever the library makes
    of it, and the [switch], which dispatches as the specification says, is
    not reached. *)
Theorem plusAmountUnit_defers_to_unit (this : YearMonth) (amount : Z) (u : ChronoUnit) :
  _plusAmountUnit this amount u = unit_addTo L u this amount /\
  plusAmountUnit_switch this amount u = plusAmountUnit_spec this amount u.
Proof. split; [reflexivity|]. destruct u; reflexivity. Qed.

Lemma plusYears_value (this : YearMonth) (n : Z) :
  plusYears this n =
    if n =? 0 then Ok this
    else if ValueRange.isValidValue (ChronoField_range YEAR) (Num (_year this + n))
    then Ok (new_YearMonth (_year this + n) (_month this))
    else Err (DateTimeException (InvalidValue YEAR (Num (_year this + n)))).
Proof.
  unfold plusYears. destruct (n =? 0); [reflexivity|].
  unfold ChronoField_checkValidIntValue, ChronoField_checkValidValue.
  destruct (ValueRange.isValidValue _ _); [|reflexivity].
  cbn [bind]. now rewrite withYearMonth_value.
Qed.

Lemma minusYears_differs (this : YearMonth) :
  minusYears this MathUtil.MIN_SAFE_INTEGER <>
  minusYears_spec this MathUtil.MIN_SAFE_INTEGER.
Proof.
  unfold minusYears, minusYears_spec. rewrite Z.eqb_refl.
  rewrite !plusYears_value.
  change (MathUtil.MIN_SAFE_INTEGER =? 0) with false.
  change (MathUtil.MAX_SAFE_INTEGER =? 0) with false. cbv iota.
  destruct (ValueRange.isValidValue _ (Num (_year this + MathUtil.MIN_SAFE_INTEGER)));
    destruct (ValueRange.isValidValue _ (Num (_year this + MathUtil.MAX_SAFE_INTEGER)));
    cbn [bind]; rewrite ?plusYears_value; cbn [_year _month];
    change (1 =? 0) with false; cbv iota;
    repeat match goal with
    | |- context [ValueRange.isValidValue ?r ?v] =>
        destruct (ValueRange.isValidValue r v)
    end;
    unfold MathUtil.MIN_SAFE_INTEGER, MathUtil.MAX_SAFE_INTEGER;
    intros E; try discriminate; injection E; lia.
Qed.

Lemma minusMonths_differs (this : YearMonth) :
  minusMonths this MathUtil.MIN_SAFE_INTEGER <>
  minusMonths_spec this MathUtil.MIN_SAFE_INTEGER.
Proof.
  unfold minusMonths, minusMonths_spec. rewrite Z.eqb_refl.
  unfold Math_MAX_SAFE_INTEGER. rewrite plusMonths_undefined. cbn [bind].
  rewrite plusMonths_int_eq.
  change (MathUtil.MAX_SAFE_INTEGER =? 0) with false. cbv iota zeta.
  destruct (ValueRange.isValidValue _ _); cbn [bind]; [|discriminate].
  rewrite plusMonths_int_eq. change (1 =? 0) with false. cbv iota zeta.
  destruct (ValueRange.isValidValue _ _); discriminate.
Qed.

(** C2, on the code: away from the most negative amount the three
    subtractions negate the amount and add, as the specification says, and
    [minus(n, unit)] follows it at that amount too; there, [minusYears] adds
    the safe-integer minimum where the specification adds the maximum, and
    [minusMonths] adds [Math.MAX_SAFE_INTEGER], which is [undefined], and
    fails in the check of the year on [NaN]: on every value both differ from
    what the specification describes. *)
Theorem minus_at_MIN_SAFE_INTEGER (this : YearMonth) (n : Z) (unit : TemporalUnit) :
  _minusAmountUnit this n unit = minusAmountUnit_spec this n unit /\
  minusYears this n =
    (if n =? MathUtil.MIN_SAFE_INTEGER
     then r <- plusYears this MathUtil.MIN_SAFE_INTEGER;; plusYears r 1
     else minusYears_spec this n) /\
  minusMonths this n =
    (if n =? MathUtil.MIN_SAFE_INTEGER
     then Err (DateTimeException (InvalidValue YEAR NaN))
     else minusMonths_spec this n) /\
  minusYears this MathUtil.MIN_SAFE_INTEGER <>
    minusYears_spec this MathUtil.MIN_SAFE_INTEGER /\
  minusMonths this MathUtil.MIN_SAFE_INTEGER <>
    minusMonths_spec this MathUtil.MIN_SAFE_INTEGER.
Proof.
  split; [reflexivity|]. split; [|split; [|split]].
  - unfold minusYears, minusYears_spec.
    destruct (n =? MathUtil.MIN_SAFE_INTEGER); reflexivity.
  - unfold minusMonths, minusMonths_spec.
    destruct (n =? MathUtil.MIN_SAFE_INTEGER); reflexivity.
  - apply minusYears_differs.
  - apply minusMonths_differs.
Qed.

(** *** Instances: [from] and [equals] *)

Lemma alloc_fresh (h : Heap) (o : HeapObject) :
  h !! (alloc h o).1 = None.
Proof.
  unfold alloc. cbn [fst]. apply not_elem_of_dom, is_fresh.
Qed.

Lemma alloc_lookup (h : Heap) (o : HeapObject) :
  (alloc h o).2 !! (alloc h o).1 = Some o.
Proof. unfold alloc. cbn [fst snd]. apply lookup_insert_eq. Qed.

Lemma alloc_preserves (h : Heap) (o : HeapObject) (r : Ref) (x : HeapObject) :
  h !! r = Some x -> (alloc h o).2 !! r = Some x.
Proof.
  intros Hr. unfold alloc. cbn [snd].
  rewrite lookup_insert_ne; [exact Hr|].
  intros <-. pose proof (alloc_fresh h o) as Hf. unfold alloc in Hf.
  cbn [fst] in Hf. congruence.
Qed.

(** C9: [from(t)] returns [t] itself, the same reference in an unchanged
    heap, when [t] is a [YearMonth].  Otherwise it reads YEAR and
    MONTH_OF_YEAR with [t]'s own [get] and builds the result with [of], as a
    new instance with the two numbers read; and when reading or building
    fails, whatever the exception, it fails with a [DateTimeException] whose
    message holds the object as a string and the name of its constructor. *)
Theorem from_temporal (h : Heap) (t : Ref) :
  (forall ym, h !! t = Some (YearMonthObject ym) -> from h t = Ok (t, h)) /\
  (forall o, h !! t = Some (OtherObject o) ->
     (forall y m ym,
        call_get o YEAR = Ok y -> call_get o MONTH_OF_YEAR = Ok m ->
        of_ y m = Ok ym ->
        ym = new_YearMonth y m /\
        exists r h',
          from h t = Ok (r, h') /\ h !! r = None /\
          h' !! r = Some (YearMonthObject ym) /\ h' !! t = Some (OtherObject o)) /\
     (forall e, from_extract o = Err e ->
        from h t = Err (DateTimeException (Text (from_message o))) /\
        from_message o =
          "Unable to obtain YearMonth from TemporalAccessor: " +:+ obj_toString o
          +:+ ", type " +:+ default "" (obj_constructor_name o)) /\
     (forall e, call_get o YEAR = Err e -> from_extract o = Err e) /\
     (forall y e,
        call_get o YEAR = Ok y -> call_get o MONTH_OF_YEAR = Err e ->
        from_extract o = Err e) /\
     (forall y m e,
        call_get o YEAR = Ok y -> call_get o MONTH_OF_YEAR = Ok m ->
        of_ y m = Err e -> from_extract o = Err e)).
Proof.
  split.
  - intros ym Ht. unfold from. now rewrite Ht.
  - intros o Ht. split; [|split; [|split; [|split]]].
    + intros y m ym Hy Hm Hof. split.
      * unfold of_, _ofYearMonthNumber in Hof.
        destruct (ChronoField_checkValidValue YEAR y); [|discriminate].
        cbn [bind] in Hof.
        destruct (ChronoField_checkValidValue MONTH_OF_YEAR m); [|discriminate].
        cbn [bind] in Hof. congruence.
      * exists (alloc h (YearMonthObject ym)).1, (alloc h (YearMonthObject ym)).2.
        split; [|split; [|split]].
        -- unfold from, from_extract. rewrite Ht, Hy. cbn [bind].
           rewrite Hm. cbn [bind]. rewrite Hof.
           now destruct (alloc h (YearMonthObject ym)).
        -- apply alloc_fresh.
        -- apply alloc_lookup.
        -- now apply alloc_preserves.
    + intros e He. split.
      * unfold from. now rewrite Ht, He.
      * unfold from_message. now destruct (obj_constructor_name o).
    + intros e He. unfold from_extract. now rewrite He.
    + intros y e Hy He. unfold from_extract. rewrite Hy. cbn [bind]. now rewrite He.
    + intros y m e Hy Hm He. unfold from_extract. rewrite Hy. cbn [bind].
      rewrite Hm. cbn [bind]. exact He.
Qed.

(** *** Further properties of the class *)

Ltac unfold_ranges :=
  cbn [ValueRange.isValidValue ValueRange.minimum ValueRange.maximum
       ChronoField_range _year _month year monthValue] in *.

Ltac invert_ok :=
  repeat match goal with
  | H : Err _ = Ok _ |- _ => discriminate H
  | H : Ok _ = Ok _ |- _ => injection H as H; try subst
  | H : bind _ _ = Ok _ |- _ => cbn [bind] in H
  | H : (if ?c then _ else _) = Ok _ |- _ =>
      let E := fresh "E" in destruct c eqn:E
  end.

Ltac case_ifs :=
  repeat match goal with
  | |- context [if ?c then _ else _] => let E := fresh "E" in destruct c eqn:E
  | H : context [if ?c then _ else _] |- _ =>
      let E := fresh "E" in destruct c eqn:E
  end.

Lemma isValidYearMonth_bounds (this : YearMonth) :
  isValidYearMonth this = true <->
  Year_MIN_VALUE L <= _year this <= Year_MAX_VALUE L /\ 1 <= _month this <= 12.
Proof. unfold isValidYearMonth. unfold_ranges. lia. Qed.

Lemma prolepticMonthsAreSafe_bounds :
  prolepticMonthsAreSafe = true ->
  MathUtil.MIN_SAFE_INTEGER <= Year_MIN_VALUE L * 12 /\
  Year_MAX_VALUE L * 12 + 11 <= MathUtil.MAX_SAFE_INTEGER.
Proof. unfold prolepticMonthsAreSafe, MathUtil.isSafeInteger. lia. Qed.

Lemma of_value (y m : Z) :
  of_ y m =
    if ValueRange.isValidValue (ChronoField_range YEAR) (Num y) then
      if ValueRange.isValidValue (ChronoField_range MONTH_OF_YEAR) (Num m)
      then Ok (new_YearMonth y m)
      else Err (DateTimeException (InvalidValue MONTH_OF_YEAR (Num m)))
    else Err (DateTimeException (InvalidValue YEAR (Num y))).
Proof.
  unfold of_, _ofYearMonthNumber, ChronoField_checkValidValue.
  destruct (ValueRange.isValidValue (ChronoField_range YEAR) (Num y)); [|reflexivity].
  cbn [bind].
  destruct (ValueRange.isValidValue (ChronoField_range MONTH_OF_YEAR) (Num m));
    reflexivity.
Qed.

(** X1: [of(year, month)] succeeds exactly when the year lies within the
    bounds of the year and the month within 1..12, and then [year()] and
    [monthValue()] of the result are the two arguments; otherwise it fails
    with a [DateTimeException], which reports the year when the year is out
    of bounds, whatever the month. *)
Theorem of_validates (y m : Z) :
  ((exists r, of_ y m = Ok r) <->
   Year_MIN_VALUE L <= y <= Year_MAX_VALUE L /\ 1 <= m <= 12) /\
  (forall r, of_ y m = Ok r ->
     year r = y /\ monthValue r = m /\ isValidYearMonth r = true) /\
  (~ (Year_MIN_VALUE L <= y <= Year_MAX_VALUE L) ->
   of_ y m = Err (DateTimeException (InvalidValue YEAR (Num y)))) /\
  (Year_MIN_VALUE L <= y <= Year_MAX_VALUE L -> ~ (1 <= m <= 12) ->
   of_ y m = Err (DateTimeException (InvalidValue MONTH_OF_YEAR (Num m)))).
Proof.
  rewrite of_value.
  destruct (ValueRange.isValidValue (ChronoField_range YEAR) (Num y)) eqn:Ey;
    [destruct (ValueRange.isValidValue (ChronoField_range MONTH_OF_YEAR) (Num m)) eqn:Em|];
    unfold_ranges; (split; [|split; [|split]]).
  - split; [lia|]. intros _. now eexists.
  - intros r [= <-]. unfold isValidYearMonth. unfold_ranges.
    repeat split. lia.
  - lia.
  - lia.
  - split; [intros [r Hr]; discriminate|lia].
  - intros r Hr. discriminate.
  - lia.
  - reflexivity.
  - split; [intros [r Hr]; discriminate|lia].
  - intros r Hr. discriminate.
  - reflexivity.
  - lia.
Qed.

(** X2: the operations keep the invariant.  On a value within the bounds,
    whatever [withYear], [withMonth], [plusYears], [plusMonths],
    [minusYears], [minusMonths] and [with(field, value)] on a field constant
    return is again within the bounds: a year of the library and a month of
    1..12. *)
Theorem operations_keep_valid (this r : YearMonth) :
  isValidYearMonth this = true ->
  (forall y, withYear this y = Ok r -> isValidYearMonth r = true) /\
  (forall m, withMonth this m = Ok r -> isValidYearMonth r = true) /\
  (forall n, plusYears this n = Ok r -> isValidYearMonth r = true) /\
  (forall n, plusMonths this (int n) = Ok r -> isValidYearMonth r = true) /\
  (forall n, minusYears this n = Ok r -> isValidYearMonth r = true) /\
  (forall n, minusMonths this n = Ok r -> isValidYearMonth r = true) /\
  (forall (f : ChronoField) v,
     _withFieldValue this f v = Ok r -> isValidYearMonth r = true).
Proof.
  intros Hv.
  assert (HwY : forall t y s, isValidYearMonth t = true ->
            withYear t y = Ok s -> isValidYearMonth s = true).
  { intros t y s Ht H. rewrite withYear_value in H. invert_ok.
    apply isValidYearMonth_bounds in Ht. apply isValidYearMonth_bounds.
    unfold_ranges. lia. }
  assert (HwM : forall t m s, isValidYearMonth t = true ->
            withMonth t m = Ok s -> isValidYearMonth s = true).
  { intros t m s Ht H. rewrite withMonth_value in H. invert_ok.
    apply isValidYearMonth_bounds in Ht. apply isValidYearMonth_bounds.
    unfold_ranges. lia. }
  assert (HpY : forall t n s, isValidYearMonth t = true ->
            plusYears t n = Ok s -> isValidYearMonth s = true).
  { intros t n s Ht H. rewrite plusYears_value in H. invert_ok; [assumption|].
    apply isValidYearMonth_bounds in Ht. apply isValidYearMonth_bounds.
    unfold_ranges. lia. }
  assert (HpM : forall t n s, isValidYearMonth t = true ->
            plusMonths t (int n) = Ok s -> isValidYearMonth s = true).
  { intros t n s Ht H. rewrite plusMonths_int_eq in H. cbv zeta in H.
    invert_ok; [assumption|].
    apply isValidYearMonth_bounds. unfold_ranges.
    split; [lia|]. Z.div_mod_to_equations. lia. }
  split; [|split; [|split; [|split; [|split; [|split]]]]].
  - intros y. now apply HwY.
  - intros m. now apply HwM.
  - intros n. now apply HpY.
  - intros n. now apply HpM.
  - intros n H. unfold minusYears in H.
    destruct (n =? MathUtil.MIN_SAFE_INTEGER).
    + destruct (plusYears this MathUtil.MIN_SAFE_INTEGER) as [s|e] eqn:Es;
        [|discriminate].
      cbn [bind] in H. eapply HpY; [|exact H]. eapply HpY; eassumption.
    + eapply HpY; eassumption.
  - intros n H. unfold minusMonths in H.
    destruct (n =? MathUtil.MIN_SAFE_INTEGER).
    + rewrite plusMonths_undefined in H. discriminate.
    + eapply HpM; eassumption.
  - intros f v H. unfold _withFieldValue in H.
    destruct (ChronoField_checkValidValue f v); [|discriminate].
    cbn [bind] in H. destruct f.
    + eapply HwM; eassumption.
    + destruct (getLong this PROLEPTIC_MONTH); [|discriminate].
      cbn [bind] in H. eapply HpM; eassumption.
    + eapply HwY; eassumption.
    + eapply HwY; eassumption.
    + cbn [getLong bind] in H.
      destruct ((if _year this <? 1 then 0 else 1) =? v).
      * now injection H as <-.
      * eapply HwY; eassumption.
    + discriminate.
Qed.

(** X3: setting the year and then the month is [of]: on every value,
    [withYear(y)] followed by [withMonth(m)] returns what [of(y, m)] returns,
    the same value or the same exception; and setting the month first
    succeeds exactly when [of(y, m)] does, with the same value. *)
Theorem withYear_withMonth_of (this : YearMonth) (y m : Z) :
  (r <- withYear this y;; withMonth r m) = of_ y m /\
  (forall r', (r <- withMonth this m;; withYear r y) = Ok r' <-> of_ y m = Ok r').
Proof.
  split.
  - rewrite withYear_value, of_value.
    destruct (ValueRange.isValidValue (ChronoField_range YEAR) (Num y));
      [|reflexivity].
    cbn [bind]. now rewrite withMonth_value.
  - intros r'. rewrite withMonth_value, of_value.
    destruct (ValueRange.isValidValue (ChronoField_range MONTH_OF_YEAR) (Num m));
      cbn [bind].
    + rewrite withYear_value. cbn [_month].
      destruct (ValueRange.isValidValue (ChronoField_range YEAR) (Num y));
        reflexivity.
    + destruct (ValueRange.isValidValue (ChronoField_range YEAR) (Num y));
        split; discriminate.
Qed.

(** X4: on a value within the bounds, [withYear(year())] and
    [withMonth(monthValue())] return the value itself. *)
Theorem with_own_field (this : YearMonth) :
  isValidYearMonth this = true ->
  withYear this (year this) = Ok this /\ withMonth this (monthValue this) = Ok this.
Proof.
  intros Hv. unfold isValidYearMonth in Hv. apply andb_true_iff in Hv.
  destruct Hv as [Hy Hm]. unfold year, monthValue.
  rewrite withYear_value, withMonth_value, Hy, Hm. now destruct this.
Qed.

Lemma getProlepticMonth_inv (this : YearMonth) (p : Z) :
  _getProlepticMonth this = Ok p -> p = _year this * 12 + (_month this - 1).
Proof.
  unfold _getProlepticMonth, MathUtil.safeMultiply, MathUtil.safeAdd.
  destruct (MathUtil.isSafeInteger (_year this * 12)); [|discriminate].
  cbn [bind].
  destruct (MathUtil.isSafeInteger (_year this * 12 + (_month this - 1)));
    [|discriminate].
  now intros [= <-].
Qed.

Lemma getProlepticMonth_valid (this : YearMonth) :
  prolepticMonthsAreSafe = true ->
  Year_MIN_VALUE L <= _year this <= Year_MAX_VALUE L -> 1 <= _month this <= 12 ->
  _getProlepticMonth this = Ok (_year this * 12 + (_month this - 1)).
Proof.
  intros Hs Hy Hm. apply prolepticMonthsAreSafe_bounds in Hs.
  apply getProlepticMonth_safe; unfold MathUtil.isSafeInteger; lia.
Qed.

(** X5: what [with(field, value)] sets, [getLong(field)] reads back.  When
    [with] succeeds on one of the five field constants (for YEAR_OF_ERA with
    a year-of-era of at least 1, for ERA with an era of 0 or 1, for
    PROLEPTIC_MONTH in a library whose proleptic months are safe integers),
    [getLong] of the same field on the result is the value that was set. *)
Theorem withFieldValue_getLong (this r : YearMonth) (f : ChronoField) (v : Z) :
  (f = PROLEPTIC_MONTH -> prolepticMonthsAreSafe = true) ->
  (f = YEAR_OF_ERA -> 1 <= v) ->
  (f = ERA -> 0 <= v <= 1) ->
  _withFieldValue this f v = Ok r ->
  getLong r f = Ok v.
Proof.
  intros Hsafe Hyoe Hera H. unfold _withFieldValue in H.
  destruct (ChronoField_checkValidValue f v); [|discriminate].
  cbn [bind] in H. destruct f.
  - rewrite withMonth_value in H. invert_ok. reflexivity.
  - specialize (Hsafe eq_refl).
    destruct (getLong this PROLEPTIC_MONTH) as [p|] eqn:Ep; [|discriminate].
    cbn [bind] in H. rewrite plusMonths_int_eq in H. cbv zeta in H.
    pose proof (getProlepticMonth_inv _ _ Ep) as Hp.
    invert_ok.
    + rewrite Ep. f_equal. lia.
    + cbn [getLong]. unfold_ranges.
      replace (_year this * 12 + (_month this - 1) +
               (v - (_year this * 12 + (_month this - 1)))) with v in * by lia.
      rewrite getProlepticMonth_valid; cbn [_year _month];
        [f_equal| assumption | |]; Z.div_mod_to_equations; lia.
  - specialize (Hyoe eq_refl). rewrite withYear_value in H. invert_ok.
    cbn [getLong _year]. f_equal. case_ifs; lia.
  - rewrite withYear_value in H. invert_ok. reflexivity.
  - specialize (Hera eq_refl). cbn [getLong bind] in H.
    destruct ((if _year this <? 1 then 0 else 1) =? v) eqn:E.
    + invert_ok. cbn [getLong]. f_equal. case_ifs; lia.
    + rewrite withYear_value in H. invert_ok.
      cbn [getLong _year]. f_equal. case_ifs; lia.
  - discriminate.
Qed.

(** X6: what [with(field, value)] leaves alone.  MONTH_OF_YEAR keeps the
    year and YEAR keeps the month; YEAR_OF_ERA, given a year-of-era of at
    least 1, keeps the month and the era; ERA keeps the month and the
    year-of-era. *)
Theorem withFieldValue_keeps (this r : YearMonth) (v : Z) :
  (_withFieldValue this MONTH_OF_YEAR v = Ok r -> year r = year this) /\
  (_withFieldValue this YEAR v = Ok r -> monthValue r = monthValue this) /\
  (1 <= v -> _withFieldValue this YEAR_OF_ERA v = Ok r ->
   monthValue r = monthValue this /\ getLong r ERA = getLong this ERA) /\
  (_withFieldValue this ERA v = Ok r ->
   monthValue r = monthValue this /\
   getLong r YEAR_OF_ERA = getLong this YEAR_OF_ERA).
Proof.
  unfold _withFieldValue.
  split; [|split; [|split]].
  - destruct (ChronoField_checkValidValue MONTH_OF_YEAR v); [|discriminate].
    cbn [bind]. rewrite withMonth_value. intros H. invert_ok. reflexivity.
  - destruct (ChronoField_checkValidValue YEAR v); [|discriminate].
    cbn [bind]. rewrite withYear_value. intros H. invert_ok. reflexivity.
  - intros Hv. destruct (ChronoField_checkValidValue YEAR_OF_ERA v); [|discriminate].
    cbn [bind]. rewrite withYear_value. intros H. invert_ok.
    split; [reflexivity|]. cbn [getLong _year]. f_equal. case_ifs; lia.
  - destruct (ChronoField_checkValidValue ERA v); [|discriminate].
    cbn [bind getLong].
    destruct ((if _year this <? 1 then 0 else 1) =? v).
    + intros [= <-]. split; reflexivity.
    + rewrite withYear_value. intros H. invert_ok.
      split; [reflexivity|]. cbn [_year]. f_equal. case_ifs; lia.
Qed.

(** X7: PROLEPTIC_MONTH replaces the year and the month altogether: on a
    value whose month is one of 1..12, the result of
    [with(PROLEPTIC_MONTH, v)] has the year [floorDiv(v, 12)] and the month
    [floorMod(v, 12) + 1], whatever the value was. *)
Theorem withFieldValue_PROLEPTIC_MONTH_replaces (this r : YearMonth) (v : Z) :
  1 <= _month this <= 12 ->
  _withFieldValue this PROLEPTIC_MONTH v = Ok r ->
  r = new_YearMonth (MathUtil.floorDiv v 12) (MathUtil.floorMod v 12 + 1).
Proof.
  intros Hm H. unfold _withFieldValue, MathUtil.floorDiv, MathUtil.floorMod in *.
  destruct (ChronoField_checkValidValue PROLEPTIC_MONTH v); [|discriminate].
  cbn [bind] in H.
  destruct (getLong this PROLEPTIC_MONTH) as [p|] eqn:Ep; [|discriminate].
  cbn [bind] in H. rewrite plusMonths_int_eq in H. cbv zeta in H.
  pose proof (getProlepticMonth_inv _ _ Ep) as Hp.
  invert_ok.
  - destruct r as [y m]. cbn [_year _month] in *.
    f_equal; Z.div_mod_to_equations; lia.
  - f_equal; [f_equal|do 2 f_equal]; lia.
Qed.

(** X8: [isSupported(field)] agrees with the field protocol on the field
    constants.  [getLong] fails with an [UnsupportedTemporalTypeException]
    exactly on the constants [isSupported] refuses, and [with] never succeeds
    on them; on a constant [isSupported] accepts, [getLong] returns a number
    for every value within the bounds of a library whose proleptic months
    are safe integers. *)
Theorem isSupportedField_protocol (this : YearMonth) (f : ChronoField) :
  (_isSupportedField this f = false <->
   exists m, getLong this f = Err (UnsupportedTemporalTypeException m)) /\
  (_isSupportedField this f = false ->
   forall v r, _withFieldValue this f v <> Ok r) /\
  (_isSupportedField this f = true ->
   isValidYearMonth this = true -> prolepticMonthsAreSafe = true ->
   exists v, getLong this f = Ok v).
Proof.
  split; [|split].
  - destruct f; cbn [_isSupportedField getLong]; split;
      try discriminate; try (intros [m Hm]; discriminate Hm);
      try (intros _; eexists; reflexivity).
    intros [m Hm]. unfold _getProlepticMonth, MathUtil.safeMultiply,
      MathUtil.safeAdd in Hm.
    destruct (MathUtil.isSafeInteger (_year this * 12)); [|discriminate].
    cbn [bind] in Hm.
    destruct (MathUtil.isSafeInteger (_year this * 12 + (_month this - 1)));
      discriminate.
  - destruct f; cbn [_isSupportedField]; try discriminate.
    intros _ v r. unfold _withFieldValue.
    destruct (ChronoField_checkValidValue (OtherChronoField name) v); discriminate.
  - intros Hs Hv Hsafe. apply isValidYearMonth_bounds in Hv. destruct Hv as [Hy Hm].
    destruct f; cbn [_isSupportedField getLong] in *; try discriminate;
      try (eexists; reflexivity).
    eexists. now apply getProlepticMonth_valid.
Qed.

(** X9: the range of YEAR_OF_ERA fits the value.  In a library whose lowest
    year is not below the negation of its highest, the year-of-era of a
    value within the bounds lies within [range(YEAR_OF_ERA)] of that value;
    and the range is tight: the value of the highest year, and the value of
    the year that negates it, have the maximum of their range as their
    year-of-era. *)
Theorem range_YEAR_OF_ERA_fits (this : YearMonth) :
  isValidYearMonth this = true ->
  - Year_MAX_VALUE L <= Year_MIN_VALUE L ->
  exists r v,
    range this YEAR_OF_ERA = Ok r /\ getLong this YEAR_OF_ERA = Ok v /\
    ValueRange.isValidValue r (Num v) = true /\
    (_year this = Year_MAX_VALUE L \/ _year this = - Year_MAX_VALUE L ->
     1 <= Year_MAX_VALUE L -> v = ValueRange.maximum r).
Proof.
  intros Hv Hsym. apply isValidYearMonth_bounds in Hv. destruct Hv as [Hy Hm].
  unfold range, getLong, year. do 2 eexists. split; [reflexivity|].
  split; [reflexivity|].
  destruct (_year this <=? 0) eqn:E0; destruct (_year this <? 1) eqn:E1;
    unfold_ranges; split; lia.
Qed.

(** X10: the fields derived from the year are consistent.  On every value,
    the era is 0 or 1, the year-of-era is at least 1, the year is the
    year-of-era in era 1 and 1 minus the year-of-era in era 0, and the
    proleptic month, when it does not overflow, is 12 times the year plus
    the month minus 1. *)
Theorem derived_fields_consistent (this : YearMonth) :
  exists era yoe y m,
    getLong this ERA = Ok era /\ getLong this YEAR_OF_ERA = Ok yoe /\
    getLong this YEAR = Ok y /\ getLong this MONTH_OF_YEAR = Ok m /\
    (era = 0 \/ era = 1) /\ 1 <= yoe /\
    y = (if era =? 1 then yoe else 1 - yoe) /\
    (forall p, getLong this PROLEPTIC_MONTH = Ok p -> p = y * 12 + m - 1).
Proof.
  do 4 eexists. cbn [getLong]. repeat (split; [reflexivity|]).
  split; [case_ifs; lia|]. split; [case_ifs; lia|]. split; [case_ifs; lia|].
  intros p Hp. apply getProlepticMonth_inv in Hp. lia.
Qed.

(** *** Further properties of the arithmetic *)

(** X11: additions of years compose: when [plusYears(a)] and then
    [plusYears(b)] both succeed, [plusYears(a + b)] succeeds with the same
    value. *)
Theorem plusYears_plusYears (this r r' : YearMonth) (a b : Z) :
  plusYears this a = Ok r ->
  plusYears r b = Ok r' ->
  plusYears this (a + b) = Ok r'.
Proof.
  intros Ha Hb. rewrite plusYears_value in *.
  destruct this as [y m]. cbn [_year _month] in *.
  invert_ok; cbn [_year _month] in *; case_ifs; unfold_ranges;
    try reflexivity; try (f_equal; f_equal; lia); try lia.
Qed.

(** X12: additions of months compose: on a value whose month is one of
    1..12, when [plusMonths(a)] and then [plusMonths(b)] both succeed,
    [plusMonths(a + b)] succeeds with the same value. *)
Theorem plusMonths_plusMonths (this r r' : YearMonth) (a b : Z) :
  1 <= _month this <= 12 ->
  plusMonths this (int a) = Ok r ->
  plusMonths r (int b) = Ok r' ->
  plusMonths this (int (a + b)) = Ok r'.
Proof.
  intros Hm Ha Hb. rewrite plusMonths_int_eq in *. cbv zeta in *.
  destruct this as [y m]. cbn [_year _month] in *.
  destruct (Z.eqb_spec a 0) as [->|Ha0].
  { injection Ha as <-. cbn [_year _month] in Hb. exact Hb. }
  destruct (ValueRange.isValidValue _ _) eqn:Va in Ha; [|discriminate].
  injection Ha as <-. cbn [_year _month] in Hb.
  replace ((y * 12 + (m - 1) + a) / 12 * 12 + ((y * 12 + (m - 1) + a) mod 12 + 1 - 1) + b)
    with (y * 12 + (m - 1) + (a + b)) in Hb
    by (Z.div_mod_to_equations; lia).
  destruct (Z.eqb_spec b 0) as [->|Hb0].
  { injection Hb as <-. destruct (Z.eqb_spec (a + 0) 0); [lia|].
    replace (a + 0) with a by lia. now rewrite Va. }
  destruct (ValueRange.isValidValue _ _) eqn:Vb in Hb; [|discriminate].
  injection Hb as <-.
  destruct (Z.eqb_spec (a + b) 0) as [Hab|Hab].
  - f_equal. replace (y * 12 + (m - 1) + (a + b)) with (y * 12 + (m - 1)) by lia.
    f_equal; Z.div_mod_to_equations; lia.
  - now rewrite Vb.
Qed.

(** X13: a year is twelve months: on a value whose month is one of 1..12,
    [plusYears(n)] succeeds exactly when [plusMonths(12 * n)] succeeds, and
    with the same value; and when one fails so does the other, with a
    [DateTimeException]. *)
Theorem plusYears_is_plusMonths (this : YearMonth) (n : Z) :
  1 <= _month this <= 12 ->
  (forall r, plusYears this n = Ok r <-> plusMonths this (int (12 * n)) = Ok r) /\
  ((exists m, plusYears this n = Err (DateTimeException m)) <->
   (exists m, plusMonths this (int (12 * n)) = Err (DateTimeException m))).
Proof.
  intros Hm. rewrite plusYears_value, plusMonths_int_eq. cbv zeta.
  destruct (Z.eqb_spec n 0) as [->|Hn].
  { split; [reflexivity|]. split; intros [m H]; discriminate H. }
  destruct (Z.eqb_spec (12 * n) 0) as [H0|_]; [lia|].
  replace ((_year this * 12 + (_month this - 1) + 12 * n) / 12)
    with (_year this + n) by (Z.div_mod_to_equations; lia).
  replace ((_year this * 12 + (_month this - 1) + 12 * n) mod 12 + 1)
    with (_month this) by (Z.div_mod_to_equations; lia).
  split; [reflexivity|].
  destruct (ValueRange.isValidValue _ _); split; intros [m H];
    try discriminate H; eauto.
Qed.

(** X14: years added, then subtracted: for an amount other than the most
    negative safe integer, when [plusYears(n)] and then [minusYears(n)] on
    its result both succeed, the final value is the original. *)
Theorem plusYears_minusYears (this r r' : YearMonth) (n : Z) :
  n <> MathUtil.MIN_SAFE_INTEGER ->
  plusYears this n = Ok r ->
  minusYears r n = Ok r' ->
  r' = this.
Proof.
  intros Hn Hp Hm. unfold minusYears in Hm.
  destruct (Z.eqb_spec n MathUtil.MIN_SAFE_INTEGER) as [|_]; [contradiction|].
  assert (H0 : plusYears this (n + - n) = Ok r')
    by (eapply plusYears_plusYears; eassumption).
  replace (n + - n) with 0 in H0 by lia.
  unfold plusYears in H0. cbn in H0. congruence.
Qed.

(** X15: [plusMonths(n)] adds [n] to the proleptic month: in a library whose
    proleptic months are safe integers, when [plusMonths(n)] succeeds on a
    value with proleptic month [p], the proleptic month of the result is
    [p + n]. *)
Theorem plusMonths_shifts_PROLEPTIC_MONTH (this r : YearMonth) (n p : Z) :
  prolepticMonthsAreSafe = true ->
  getLong this PROLEPTIC_MONTH = Ok p ->
  plusMonths this (int n) = Ok r ->
  getLong r PROLEPTIC_MONTH = Ok (p + n).
Proof.
  intros Hsafe Hp Hr. rewrite plusMonths_int_eq in Hr. cbv zeta in Hr.
  pose proof (getProlepticMonth_inv _ _ Hp) as Hp'.
  destruct (Z.eqb_spec n 0) as [->|Hn].
  { injection Hr as <-. rewrite Hp. f_equal. lia. }
  destruct (ValueRange.isValidValue _ _) eqn:V in Hr; [|discriminate].
  injection Hr as <-. cbn [getLong]. unfold_ranges.
  rewrite getProlepticMonth_valid; cbn [_year _month];
    [f_equal| assumption | |]; Z.div_mod_to_equations; lia.
Qed.

(** X18: [plusYears(n)] succeeds exactly when [n] is 0 or the year plus [n]
    lies within the bounds of the year; the result is then the value with
    that year and the same month (the value itself for 0), and otherwise
    the call fails with a [DateTimeException]. *)
Theorem plusYears_adds (this : YearMonth) (n : Z) :
  ((exists r, plusYears this n = Ok r) <->
   n = 0 \/ Year_MIN_VALUE L <= _year this + n <= Year_MAX_VALUE L) /\
  (forall r, plusYears this n = Ok r ->
     year r = year this + n /\ monthValue r = monthValue this) /\
  (n <> 0 -> ~ (Year_MIN_VALUE L <= _year this + n <= Year_MAX_VALUE L) ->
   exists m, plusYears this n = Err (DateTimeException m)).
Proof.
  rewrite plusYears_value. unfold year, monthValue.
  destruct (Z.eqb_spec n 0) as [->|Hn].
  - split; [|split].
    + split; [auto|]. intros _. now eexists.
    + intros r [= <-]. split; [lia|reflexivity].
    + contradiction.
  - destruct (ValueRange.isValidValue (ChronoField_range YEAR) (Num (_year this + n)))
      eqn:E; unfold_ranges; (split; [|split]).
    + split; [intros _; right; lia|]. intros _. now eexists.
    + intros r [= <-]. split; reflexivity.
    + lia.
    + split; [intros [r Hr]; discriminate|]. intros [H0|H1]; [contradiction|lia].
    + intros r Hr. discriminate.
    + intros _ _. now eexists.
Qed.

(** X19: amounts at the limits of the safe integers are refused.  In a
    library whose months, counted together, stay below the safe-integer
    maximum, on a value within the bounds, adding or subtracting
    [MAX_SAFE_INTEGER] or [MIN_SAFE_INTEGER] years or months never returns a
    value: each of the eight calls fails with a [DateTimeException]. *)
Theorem extreme_amounts_refused (this : YearMonth) (n : Z) :
  monthSpanIsSafe = true ->
  isValidYearMonth this = true ->
  n = MathUtil.MAX_SAFE_INTEGER \/ n = MathUtil.MIN_SAFE_INTEGER ->
  (exists m, plusYears this n = Err (DateTimeException m)) /\
  (exists m, plusMonths this (int n) = Err (DateTimeException m)) /\
  (exists m, minusYears this n = Err (DateTimeException m)) /\
  (exists m, minusMonths this n = Err (DateTimeException m)).
Proof.
  intros Hspan Hv Hn. apply isValidYearMonth_bounds in Hv. destruct Hv as [Hy Hm].
  unfold monthSpanIsSafe in Hspan.
  assert (Hpos : 0 < MathUtil.MAX_SAFE_INTEGER) by reflexivity.
  assert (Hopp : MathUtil.MIN_SAFE_INTEGER = - MathUtil.MAX_SAFE_INTEGER)
    by reflexivity.
  assert (HY : forall k, k = MathUtil.MAX_SAFE_INTEGER \/ k = MathUtil.MIN_SAFE_INTEGER ->
            exists m, plusYears this k = Err (DateTimeException m)).
  { intros k Hk. rewrite plusYears_value.
    destruct (Z.eqb_spec k 0) as [H0|_]; [lia|].
    destruct (ValueRange.isValidValue _ _) eqn:E; [|eauto].
    unfold_ranges. lia. }
  assert (HM : forall k, k = MathUtil.MAX_SAFE_INTEGER \/ k = MathUtil.MIN_SAFE_INTEGER ->
            exists m, plusMonths this (int k) = Err (DateTimeException m)).
  { intros k Hk. rewrite plusMonths_int_eq. cbv zeta.
    destruct (Z.eqb_spec k 0) as [H0|_]; [lia|].
    destruct (ValueRange.isValidValue _ _) eqn:E; [|eauto].
    unfold_ranges. Z.div_mod_to_equations. lia. }
  split; [now apply HY|]. split; [now apply HM|]. split.
  - unfold minusYears. destruct (Z.eqb_spec n MathUtil.MIN_SAFE_INTEGER) as [->|Hne].
    + destruct (HY MathUtil.MIN_SAFE_INTEGER) as [m Hmsg]; [now right|].
      rewrite Hmsg. cbn [bind]. eauto.
    + apply HY. right. lia.
  - unfold minusMonths. destruct (Z.eqb_spec n MathUtil.MIN_SAFE_INTEGER) as [->|Hne].
    + unfold Math_MAX_SAFE_INTEGER. rewrite plusMonths_undefined. cbn [bind]. eauto.
    + apply HM. right. lia.
Qed.

(** *** Further properties of the instances *)

(** X16: [equals] is an equivalence on the instances of a heap, and it is
    equality of the year and the month: between instances it is symmetric
    and transitive, and it returns [true] exactly when the two instances
    hold the same year and month. *)
Theorem equals_equivalence (h : Heap) (a b c : Ref) (x y z : YearMonth) :
  h !! a = Some (YearMonthObject x) ->
  h !! b = Some (YearMonthObject y) ->
  h !! c = Some (YearMonthObject z) ->
  (equals h a (JsRef b) = true <-> x = y) /\
  equals h a (JsRef b) = equals h b (JsRef a) /\
  (equals h a (JsRef b) = true -> equals h b (JsRef c) = true ->
   equals h a (JsRef c) = true).
Proof.
  intros Ha Hb Hc.
  assert (Heq : forall p q u v,
            h !! p = Some (YearMonthObject u) -> h !! q = Some (YearMonthObject v) ->
            (equals h p (JsRef q) = true <-> u = v)).
  { intros p q u v Hp Hq. unfold equals. cbn [strictEquals instanceof_YearMonth].
    rewrite Hp, Hq. destruct (Pos.eqb_spec p q) as [->|_].
    - split; [intros _; congruence|reflexivity].
    - unfold year, monthValue. destruct u as [uy um], v as [vy vm].
      cbn [_year _month]. split; [intros H; f_equal; lia|intros [= -> ->]; lia]. }
  split; [now apply Heq|]. split.
  - destruct (equals h a (JsRef b)) eqn:E1; destruct (equals h b (JsRef a)) eqn:E2;
      try reflexivity.
    + apply (Heq a b x y Ha Hb) in E1. symmetry in E1.
      apply (Heq b a y x Hb Ha) in E1. congruence.
    + apply (Heq b a y x Hb Ha) in E2. symmetry in E2.
      apply (Heq a b x y Ha Hb) in E2. congruence.
  - intros E1 E2. apply (Heq a b x y Ha Hb) in E1. apply (Heq b c y z Hb Hc) in E2.
    apply (Heq a c x z Ha Hc). congruence.
Qed.

(** X17: what [from] returns is an instance, and [from] of it is itself:
    when [from(t)] succeeds, its result is a [YearMonth] of the heap, a
    second [from] on the result returns the same reference and leaves the
    heap as it is, and every object the heap held is still there. *)
Theorem from_returns_instance (h h' : Heap) (t r : Ref) :
  from h t = Ok (r, h') ->
  (exists ym, h' !! r = Some (YearMonthObject ym)) /\
  from h' r = Ok (r, h') /\
  (forall q o, h !! q = Some o -> h' !! q = Some o).
Proof.
  unfold from at 1. destruct (h !! t) as [[ym|o]|] eqn:Ht; [| |discriminate].
  - intros [= <- <-]. split; [eauto|]. split; [|auto].
    unfold from. now rewrite Ht.
  - destruct (from_extract o) as [ym|e]; [|discriminate].
    intros H0.
    assert (H : alloc h (YearMonthObject ym) = (r, h')) by congruence.
    pose proof (alloc_lookup h (YearMonthObject ym)) as Hl.
    pose proof (alloc_preserves h (YearMonthObject ym)) as Hk.
    rewrite H in Hl, Hk. cbn [fst snd] in Hl, Hk.
    split; [|split].
    + eexists. exact Hl.
    + unfold from. now rewrite Hl.
    + exact Hk.
Qed.

End YearMonth.

(** C10: [equals(obj)], on a receiver that is a [YearMonth], returns [false]
    when [obj] is null and when [obj] is not an instance of [YearMonth],
    returns [true] when [obj] is the receiver itself, and for any instance
    of [YearMonth] returns [true] exactly when its year and its month are
    the receiver's; it returns a boolean on every argument. *)
Theorem equals_instances (h : Heap) (this : Ref) (me : YearMonth) (obj : JsValue) :
  h !! this = Some (YearMonthObject me) ->
  (obj = JsNull -> equals h this obj = false) /\
  (instanceof_YearMonth h obj = None -> equals h this obj = false) /\
  (obj = JsRef this -> equals h this obj = true) /\
  (forall other,
     instanceof_YearMonth h obj = Some other ->
     (equals h this obj = true <->
      year me = year other /\ monthValue me = monthValue other)).
Proof.
  intros Hthis.
  assert (Hme : instanceof_YearMonth h (JsRef this) = Some me).
  { unfold instanceof_YearMonth. now rewrite Hthis. }
  assert (Hsame : strictEquals (JsRef this) obj = true -> obj = JsRef this).
  { destruct obj; try discriminate. cbn [strictEquals].
    intros E. apply Pos.eqb_eq in E. now subst. }
  split; [|split; [|split]].
  - intros ->. reflexivity.
  - intros Hobj. unfold equals.
    destruct (strictEquals (JsRef this) obj) eqn:E.
    + specialize (Hsame eq_refl). subst obj. congruence.
    + now rewrite Hobj.
  - intros ->. unfold equals. cbn [strictEquals]. now rewrite Pos.eqb_refl.
  - intros other Hobj. unfold equals.
    destruct (strictEquals (JsRef this) obj) eqn:E.
    + specialize (Hsame eq_refl). subst obj.
      assert (other = me) by congruence. subst other. tauto.
    + rewrite Hobj, Hme. lia.
Qed.

(** ** The class on concrete inputs *)

(** C3 at 2007-12 and 2008-01. *)
Lemma plusMonths_rollover_witness :
  plusMonths sample (new_YearMonth 2007 12) (int 1) = Ok (new_YearMonth 2008 1) /\
  minusMonths sample (new_YearMonth 2008 1) 1 = Ok (new_YearMonth 2007 12) /\
  plusMonths sample (new_YearMonth 0 1) (int (-1)) = Ok (new_YearMonth (-1) 12).
Proof.
  destruct (plusMonths_rollover sample (new_YearMonth 2007 12) 1) as (_ & _ & _ & H).
  destruct H as (_ & _ & H1 & H2); [simpl; lia | simpl; lia |].
  destruct (plusMonths_rollover sample (new_YearMonth 0 1) (-1)) as (_ & H3 & _).
  split; [exact H1 | split; [exact H2 |]].
  apply H3; [lia | vm_compute; split; discriminate].
Defined.



(** C6 at 2008-06: month 12 is set, and month 13 is refused. *)
Lemma withFieldValue_well_known_witness :
  _withFieldValue sample (new_YearMonth 2008 6) MONTH_OF_YEAR 12 =
    Ok (new_YearMonth 2008 12) /\
  _withFieldValue sample (new_YearMonth 2008 6) MONTH_OF_YEAR 13 =
    Err (DateTimeException (InvalidValue MONTH_OF_YEAR (Num 13))) /\
  _withFieldValue sample (new_YearMonth 0 6) YEAR_OF_ERA 5 =
    withYear sample (new_YearMonth 0 6) (-4).
Proof.
  destruct (withFieldValue_well_known sample (new_YearMonth 2008 6) MONTH_OF_YEAR 12)
    as (_ & H1 & _).
  destruct (withFieldValue_well_known sample (new_YearMonth 2008 6) MONTH_OF_YEAR 13)
    as (H2 & _ & _).
  destruct (withFieldValue_well_known sample (new_YearMonth 0 6) YEAR_OF_ERA 5)
    as (_ & H3 & _).
  split; [apply H1; reflexivity | split; [apply H2; reflexivity | apply H3; reflexivity]].
Defined.

(** C7 at 2007-12 and one month. *)
Lemma plusMonths_minusMonths_witness :
  1 <= 12 <= 12 /\
  plusMonths sample (new_YearMonth 2007 12) (int 1) = Ok (new_YearMonth 2008 1) /\
  minusMonths sample (new_YearMonth 2008 1) 1 = Ok (new_YearMonth 2007 12) /\
  new_YearMonth 2007 12 = new_YearMonth 2007 12.
Proof.
  split; [lia|]. split; [reflexivity|]. split; [reflexivity|].
  apply (plusMonths_minusMonths sample (new_YearMonth 2007 12) (new_YearMonth 2008 1)
           (new_YearMonth 2007 12) 1); [simpl; lia | reflexivity | reflexivity].
Defined.

(** C8 at 2008-06 and at 0000-06. *)
Lemma range_YEAR_OF_ERA_witness :
  range sample (new_YearMonth 2008 6) YEAR_OF_ERA = Ok (ValueRange.of_ 1 999999999) /\
  range sample (new_YearMonth 0 6) YEAR_OF_ERA = Ok (ValueRange.of_ 1 1000000000).
Proof.
  destruct (range_YEAR_OF_ERA sample (new_YearMonth 2008 6)) as (H1 & _).
  destruct (range_YEAR_OF_ERA sample (new_YearMonth 0 6)) as (_ & H2).
  split; [apply H1; simpl; lia | apply H2; simpl; lia].
Defined.

(** C9 on the sample heap: the instance at 1 is returned as it is, and the
    object without [get] is refused with the message that names it. *)
Lemma from_temporal_witness :
  from sample sample_heap 1%positive = Ok (1%positive, sample_heap) /\
  from sample sample_heap 5%positive =
    Err (DateTimeException (Text
      "Unable to obtain YearMonth from TemporalAccessor: [object Object], type Object")) /\
  exists r h',
    from sample sample_heap 4%positive = Ok (r, h') /\
    h' !! r = Some (YearMonthObject (new_YearMonth 2007 12)).
Proof.
  destruct (from_temporal sample sample_heap 1%positive) as (H1 & _).
  destruct (from_temporal sample sample_heap 5%positive) as (_ & H5).
  destruct (from_temporal sample sample_heap 4%positive) as (_ & H4).
  specialize (H5 sample_object eq_refl). destruct H5 as (_ & H5 & _).
  specialize (H4 sample_accessor eq_refl). destruct H4 as (H4 & _).
  destruct (H4 2007 12 (new_YearMonth 2007 12) eq_refl eq_refl eq_refl)
    as (_ & r & h' & Hr & _ & Hl & _).
  split; [exact (H1 _ eq_refl)|].
  split; [exact (proj1 (H5 _ eq_refl))|].
  exists r, h'. split; [exact Hr | exact Hl].
Defined.

(** C10 on the sample heap: the instance at 1 against itself, against the
    equal instance at 2, against 2008-01, against a date, and against null. *)
Lemma equals_instances_witness :
  equals sample_heap 1%positive (JsRef 1%positive) = true /\
  equals sample_heap 1%positive (JsRef 2%positive) = true /\
  equals sample_heap 1%positive (JsRef 3%positive) = false /\
  equals sample_heap 1%positive (JsRef 4%positive) = false /\
  equals sample_heap 1%positive JsNull = false.
Proof.
  pose proof (equals_instances sample_heap 1%positive (new_YearMonth 2007 12)) as E.
  destruct (E (JsRef 1%positive) eq_refl) as (_ & _ & H1 & _).
  destruct (E (JsRef 2%positive) eq_refl) as (_ & _ & _ & H2).
  destruct (E (JsRef 4%positive) eq_refl) as (_ & H4 & _).
  destruct (E JsNull eq_refl) as (H0 & _).
  split; [exact (H1 eq_refl)|].
  split; [apply (H2 (new_YearMonth 2007 12) eq_refl); split; reflexivity|].
  split; [reflexivity|].
  split; [exact (H4 eq_refl) | exact (H0 eq_refl)].
Defined.

(** C1 at 2007-12: [plus(1, MONTHS)] is what [MONTHS.addTo] returns (in the
    sample library it throws), where the dispatch of the specification gives
    2008-01. *)
Example plusAmountUnit_MONTHS_sample :
  _plusAmountUnit sample (new_YearMonth 2007 12) 1 MONTHS =
    unit_addTo sample MONTHS (new_YearMonth 2007 12) 1 /\
  _plusAmountUnit sample (new_YearMonth 2007 12) 1 MONTHS =
    Err (ForeignException "TemporalUnit.addTo") /\
  plusAmountUnit_spec sample (new_YearMonth 2007 12) 1 MONTHS =
    Ok (new_YearMonth 2008 1).
Proof. repeat split. Qed.

(** C2 at 2007-12 and the most negative amount: the years are checked at
    [2007 + MIN_SAFE_INTEGER] where the specification has
    [2007 + MAX_SAFE_INTEGER], and the months at [NaN]. *)
Example minus_MIN_SAFE_INTEGER_sample :
  minusYears sample (new_YearMonth 2007 12) MathUtil.MIN_SAFE_INTEGER =
    Err (DateTimeException (InvalidValue YEAR (Num (-9007199254738984)))) /\
  minusYears_spec sample (new_YearMonth 2007 12) MathUtil.MIN_SAFE_INTEGER =
    Err (DateTimeException (InvalidValue YEAR (Num 9007199254742998))) /\
  minusMonths sample (new_YearMonth 2007 12) MathUtil.MIN_SAFE_INTEGER =
    Err (DateTimeException (InvalidValue YEAR NaN)) /\
  minusMonths_spec sample (new_YearMonth 2007 12) MathUtil.MIN_SAFE_INTEGER =
    Err (DateTimeException (InvalidValue YEAR (Num 750599937897090))).
Proof. repeat split. Qed.

(** The era boundary of the specification: year 0 is of era 0 and
    year-of-era 1, year 1 of era 1 and year-of-era 1. *)
Example getLong_era_boundary :
  getLong sample (new_YearMonth 0 6) ERA = Ok 0 /\
  getLong sample (new_YearMonth 0 6) YEAR_OF_ERA = Ok 1 /\
  getLong sample (new_YearMonth 1 6) ERA = Ok 1 /\
  getLong sample (new_YearMonth 1 6) YEAR_OF_ERA = Ok 1 /\
  getLong sample (new_YearMonth 0 1) PROLEPTIC_MONTH = Ok 0 /\
  get sample (new_YearMonth 0 6) ERA = Ok 0 /\
  get sample (new_YearMonth 0 6) YEAR_OF_ERA = Ok 1.
Proof. repeat split. Qed.

(** ** The further properties on concrete inputs *)

(** X2 at 2007-12: one month later, 2008-01, is within the bounds. *)
Lemma operations_keep_valid_witness :
  isValidYearMonth sample (new_YearMonth 2007 12) = true /\
  plusMonths sample (new_YearMonth 2007 12) (int 1) = Ok (new_YearMonth 2008 1) /\
  isValidYearMonth sample (new_YearMonth 2008 1) = true.
Proof.
  split; [reflexivity|]. split; [reflexivity|].
  destruct (operations_keep_valid sample (new_YearMonth 2007 12) (new_YearMonth 2008 1)
              eq_refl) as (_ & _ & _ & H & _).
  exact (H 1 eq_refl).
Defined.

(** X4 at 2007-12. *)
Lemma with_own_field_witness :
  isValidYearMonth sample (new_YearMonth 2007 12) = true /\
  withYear sample (new_YearMonth 2007 12) 2007 = Ok (new_YearMonth 2007 12) /\
  withMonth sample (new_YearMonth 2007 12) 12 = Ok (new_YearMonth 2007 12).
Proof.
  split; [reflexivity|].
  exact (with_own_field sample (new_YearMonth 2007 12) eq_refl).
Defined.

(** X5 at 2007-12 with proleptic month 24096 (2008-01), and at 0000-06 with
    year-of-era 5 (the year -4). *)
Lemma withFieldValue_getLong_witness :
  _withFieldValue sample (new_YearMonth 2007 12) PROLEPTIC_MONTH 24096 =
    Ok (new_YearMonth 2008 1) /\
  getLong sample (new_YearMonth 2008 1) PROLEPTIC_MONTH = Ok 24096 /\
  _withFieldValue sample (new_YearMonth 0 6) YEAR_OF_ERA 5 =
    Ok (new_YearMonth (-4) 6) /\
  getLong sample (new_YearMonth (-4) 6) YEAR_OF_ERA = Ok 5.
Proof.
  split; [reflexivity|]. split.
  - apply (withFieldValue_getLong sample (new_YearMonth 2007 12) (new_YearMonth 2008 1)
             PROLEPTIC_MONTH 24096);
      [reflexivity | discriminate | discriminate | reflexivity].
  - split; [reflexivity|].
    apply (withFieldValue_getLong sample (new_YearMonth 0 6) (new_YearMonth (-4) 6)
             YEAR_OF_ERA 5);
      [discriminate | intros _; lia | discriminate | reflexivity].
Defined.

(** X7 at 2007-12 with proleptic month 24096. *)
Lemma withFieldValue_PROLEPTIC_MONTH_replaces_witness :
  1 <= 12 <= 12 /\
  _withFieldValue sample (new_YearMonth 2007 12) PROLEPTIC_MONTH 24096 =
    Ok (new_YearMonth 2008 1) /\
  new_YearMonth 2008 1 =
    new_YearMonth (MathUtil.floorDiv 24096 12) (MathUtil.floorMod 24096 12 + 1).
Proof.
  split; [lia|]. split; [reflexivity|].
  apply (withFieldValue_PROLEPTIC_MONTH_replaces sample (new_YearMonth 2007 12)
           (new_YearMonth 2008 1) 24096); [simpl; lia | reflexivity].
Defined.

(** X9 at 0000-06, whose year-of-era is 1, within 1..1000000000. *)
Lemma range_YEAR_OF_ERA_fits_witness :
  exists r v,
    range sample (new_YearMonth 0 6) YEAR_OF_ERA = Ok r /\
    getLong sample (new_YearMonth 0 6) YEAR_OF_ERA = Ok v /\
    ValueRange.isValidValue r (Num v) = true /\
    (0 = Year_MAX_VALUE sample \/ 0 = - Year_MAX_VALUE sample ->
     1 <= Year_MAX_VALUE sample -> v = ValueRange.maximum r).
Proof.
  apply (range_YEAR_OF_ERA_fits sample (new_YearMonth 0 6)); [reflexivity | simpl; lia].
Defined.

(** X11 at 2007-12: one year, then two, is three years. *)
Lemma plusYears_plusYears_witness :
  plusYears sample (new_YearMonth 2007 12) 1 = Ok (new_YearMonth 2008 12) /\
  plusYears sample (new_YearMonth 2008 12) 2 = Ok (new_YearMonth 2010 12) /\
  plusYears sample (new_YearMonth 2007 12) (1 + 2) = Ok (new_YearMonth 2010 12).
Proof.
  split; [reflexivity|]. split; [reflexivity|].
  apply (plusYears_plusYears sample (new_YearMonth 2007 12) (new_YearMonth 2008 12));
    reflexivity.
Defined.

(** X12 at 2007-12: one month, then minus fourteen, is minus thirteen. *)
Lemma plusMonths_plusMonths_witness :
  plusMonths sample (new_YearMonth 2007 12) (int 1) = Ok (new_YearMonth 2008 1) /\
  plusMonths sample (new_YearMonth 2008 1) (int (-14)) = Ok (new_YearMonth 2006 11) /\
  plusMonths sample (new_YearMonth 2007 12) (int (1 + -14)) = Ok (new_YearMonth 2006 11).
Proof.
  split; [reflexivity|]. split; [reflexivity|].
  apply (plusMonths_plusMonths sample (new_YearMonth 2007 12) (new_YearMonth 2008 1));
    [simpl; lia | reflexivity | reflexivity].
Defined.

(** X13 at 2007-12 and three years. *)
Lemma plusYears_is_plusMonths_witness :
  1 <= 12 <= 12 /\
  plusYears sample (new_YearMonth 2007 12) 3 = Ok (new_YearMonth 2010 12) /\
  plusMonths sample (new_YearMonth 2007 12) (int (12 * 3)) = Ok (new_YearMonth 2010 12).
Proof.
  split; [lia|]. split; [reflexivity|].
  destruct (plusYears_is_plusMonths sample (new_YearMonth 2007 12) 3) as (H & _);
    [simpl; lia|].
  apply H. reflexivity.
Defined.

(** X14 at 2007-12 and three years. *)
Lemma plusYears_minusYears_witness :
  plusYears sample (new_YearMonth 2007 12) 3 = Ok (new_YearMonth 2010 12) /\
  minusYears sample (new_YearMonth 2010 12) 3 = Ok (new_YearMonth 2007 12) /\
  new_YearMonth 2007 12 = new_YearMonth 2007 12.
Proof.
  split; [reflexivity|]. split; [reflexivity|].
  apply (plusYears_minusYears sample (new_YearMonth 2007 12) (new_YearMonth 2010 12)
           (new_YearMonth 2007 12) 3); [discriminate | reflexivity | reflexivity].
Defined.

(** X15 at 0000-01, whose proleptic month is 0: one month earlier it is -1. *)
Lemma plusMonths_shifts_PROLEPTIC_MONTH_witness :
  getLong sample (new_YearMonth 0 1) PROLEPTIC_MONTH = Ok 0 /\
  plusMonths sample (new_YearMonth 0 1) (int (-1)) = Ok (new_YearMonth (-1) 12) /\
  getLong sample (new_YearMonth (-1) 12) PROLEPTIC_MONTH = Ok (0 + -1).
Proof.
  split; [reflexivity|]. split; [reflexivity|].
  apply (plusMonths_shifts_PROLEPTIC_MONTH sample (new_YearMonth 0 1)
           (new_YearMonth (-1) 12) (-1) 0); reflexivity.
Defined.

(** X16 on the sample heap: the two instances of 2007-12 at 1 and 2, and
    2008-01 at 3. *)
Lemma equals_equivalence_witness :
  equals sample_heap 1%positive (JsRef 2%positive) = true /\
  equals sample_heap 2%positive (JsRef 1%positive) = true /\
  equals sample_heap 1%positive (JsRef 3%positive) =
    equals sample_heap 3%positive (JsRef 1%positive).
Proof.
  destruct (equals_equivalence sample_heap 1%positive 2%positive 3%positive
              (new_YearMonth 2007 12) (new_YearMonth 2007 12) (new_YearMonth 2008 1)
              eq_refl eq_refl eq_refl) as (H12 & Hsym & _).
  destruct (equals_equivalence sample_heap 1%positive 3%positive 3%positive
              (new_YearMonth 2007 12) (new_YearMonth 2008 1) (new_YearMonth 2008 1)
              eq_refl eq_refl eq_refl) as (_ & Hsym' & _).
  split; [apply H12; reflexivity|].
  split; [rewrite <- Hsym; apply H12; reflexivity | exact Hsym'].
Defined.

(** X17 on the sample heap: [from] of the date at 4 returns an instance, of
    which [from] is itself. *)
Lemma from_returns_instance_witness :
  exists r h',
    from sample sample_heap 4%positive = Ok (r, h') /\
    (exists ym, h' !! r = Some (YearMonthObject ym)) /\
    from sample h' r = Ok (r, h').
Proof.
  exists (alloc sample_heap (YearMonthObject (new_YearMonth 2007 12))).1,
         (alloc sample_heap (YearMonthObject (new_YearMonth 2007 12))).2.
  assert (E : from sample sample_heap 4%positive =
              Ok ((alloc sample_heap (YearMonthObject (new_YearMonth 2007 12))).1,
                  (alloc sample_heap (YearMonthObject (new_YearMonth 2007 12))).2))
    by reflexivity.
  split; [exact E|].
  destruct (from_returns_instance sample sample_heap _ 4%positive _ E) as (H1 & H2 & _).
  split; [exact H1 | exact H2].
Defined.

(** X19 at 2007-12 and the most negative safe integer. *)
Lemma extreme_amounts_refused_witness :
  monthSpanIsSafe sample = true /\
  isValidYearMonth sample (new_YearMonth 2007 12) = true /\
  (exists m, minusYears sample (new_YearMonth 2007 12) MathUtil.MIN_SAFE_INTEGER =
               Err (DateTimeException m)) /\
  (exists m, minusMonths sample (new_YearMonth 2007 12) MathUtil.MIN_SAFE_INTEGER =
               Err (DateTimeException m)).
Proof.
  split; [reflexivity|]. split; [reflexivity|].
  destruct (extreme_amounts_refused sample (new_YearMonth 2007 12)
              MathUtil.MIN_SAFE_INTEGER eq_refl eq_refl (or_intror eq_refl))
    as (_ & _ & H3 & H4).
  split; [exact H3 | exact H4].
Defined.
